(** * Systemair ventilator accessory: register mapping and retry protocol

    A shallow embedding of [src/index.js] (class [SystemairVentilator]) and the
    properties of its six characteristic handlers and of [retryRequest].

    The handlers are asynchronous methods that talk to one device over HTTP,
    write to a log and arm timers.  They are embedded as computations in a
    small monad that threads the device, collects the events of the run in
    order and carries a thrown error. *)

From Stdlib Require Import ZArith Ascii String List Lia.
From stdpp Require Import base gmap strings list pretty.

Local Open Scope Z_scope.

(** ** JavaScript values

    The handlers receive values from the host and read values out of the
    parsed JSON body of a response.  The device registers hold integers, so
    the number domain is the integers together with [NaN], the result of a
    failed numeric conversion.  JSON arrays and objects are not modelled. *)

Module JS.

Inductive number : Type :=
| NaN
| Int (z : Z).

Inductive value : Type :=
| VUndefined
| VNull
| VBool (b : bool)
| VNumber (n : number)
| VString (s : string).

(** [ToBoolean]: the truthiness tested by [value ? a : b] and by [!value]. *)
Definition ToBoolean (v : value) : bool :=
  match v with
  | VUndefined | VNull => false
  | VBool b => b
  | VNumber NaN => false
  | VNumber (Int z) => negb (z =? 0)
  | VString EmptyString => false
  | VString (String _ _) => true
  end.

(** *** The conversion of a string to a number

    A string is first trimmed of white space at both ends.  The text left
    is a numeric literal when it follows the grammar [StrNumericLiteral] of
    the language: a radix-prefixed integer, or an optionally signed
    [Infinity] or decimal literal with optional fraction and exponent. *)
Definition is_digit (c : ascii) : bool :=
  ((48 <=? N_of_ascii c) && (N_of_ascii c <=? 57))%N.

Definition is_hex_digit (c : ascii) : bool :=
  (is_digit c
   || ((65 <=? N_of_ascii c) && (N_of_ascii c <=? 70))
   || ((97 <=? N_of_ascii c) && (N_of_ascii c <=? 102)))%N.

Definition is_octal_digit (c : ascii) : bool :=
  ((48 <=? N_of_ascii c) && (N_of_ascii c <=? 55))%N.

Definition is_binary_digit (c : ascii) : bool :=
  ((48 <=? N_of_ascii c) && (N_of_ascii c <=? 49))%N.

(** One or more characters, all of one kind. *)
Definition some_all (p : ascii -> bool) (cs : list ascii) : bool :=
  match cs with
  | [] => false
  | _ :: _ => forallb p cs
  end.

Fixpoint drop_digits (cs : list ascii) : list ascii :=
  match cs with
  | c :: cs' => if is_digit c then drop_digits cs' else cs
  | [] => []
  end.

Definition signed_integer (cs : list ascii) : bool :=
  match cs with
  | "+"%char :: ds | "-"%char :: ds => some_all is_digit ds
  | _ => some_all is_digit cs
  end.

(** An optional exponent part, up to the end of the text. *)
Definition exponent_opt (cs : list ascii) : bool :=
  match cs with
  | [] => true
  | c :: cs' => (Ascii.eqb c "e" || Ascii.eqb c "E") && signed_integer cs'
  end.

Definition unsigned_decimal_literal (cs : list ascii) : bool :=
  match cs with
  | [] => false
  | "."%char :: ds =>
      match ds with
      | d :: _ => is_digit d && exponent_opt (drop_digits ds)
      | [] => false
      end
  | d :: _ =>
      if is_digit d then
        match drop_digits cs with
        | "."%char :: rest => exponent_opt (drop_digits rest)
        | rest => exponent_opt rest
        end
      else String.eqb (string_of_list_ascii cs) "Infinity"
  end.

Definition radix_literal (cs : list ascii) : bool :=
  match cs with
  | "0"%char :: x :: ds =>
      ((Ascii.eqb x "x" || Ascii.eqb x "X") && some_all is_hex_digit ds)
      || ((Ascii.eqb x "o" || Ascii.eqb x "O") && some_all is_octal_digit ds)
      || ((Ascii.eqb x "b" || Ascii.eqb x "B") && some_all is_binary_digit ds)
  | _ => false
  end.

Definition numeric_literal (cs : list ascii) : bool :=
  radix_literal cs
  || match cs with
     | "+"%char :: r | "-"%char :: r => unsigned_decimal_literal r
     | _ => unsigned_decimal_literal cs
     end.

Definition digit_value (c : ascii) : Z := Z.of_N (N_of_ascii c) - 48.

Fixpoint digits_value (acc : Z) (cs : list ascii) : number :=
  match cs with
  | [] => Int acc
  | c :: cs' =>
      if is_digit c then digits_value (10 * acc + digit_value c) cs' else NaN
  end.

Definition negate (n : number) : number :=
  match n with
  | NaN => NaN
  | Int z => Int (- z)
  end.

(** The value of an optionally signed run of decimal digits. *)
Definition decimal_integer (cs : list ascii) : number :=
  match cs with
  | "+"%char :: ds => digits_value 0 ds
  | "-"%char :: ds => negate (digits_value 0 ds)
  | _ => digits_value 0 cs
  end.

(** White space.  A string is held as the bytes of its UTF-8 encoding.  The
    white space of the language is the ASCII white space (tab, line feed,
    vertical tab, form feed, carriage return, space) and the characters
    U+00A0, U+1680, U+2000 to U+200A, U+2028, U+2029, U+202F, U+205F, U+3000
    and U+FEFF, of two or three bytes each. *)
Definition byte_is (n : N) (c : ascii) : bool := (N_of_ascii c =? n)%N.

Definition two_byte_space (c1 c2 : ascii) : bool :=
  byte_is 194 c1 && byte_is 160 c2.

Definition three_byte_space (c1 c2 c3 : ascii) : bool :=
  (byte_is 225 c1 && byte_is 154 c2 && byte_is 128 c3)
  || (byte_is 226 c1 && byte_is 128 c2
      && (((128 <=? N_of_ascii c3) && (N_of_ascii c3 <=? 138))%N
          || byte_is 168 c3 || byte_is 169 c3 || byte_is 175 c3))
  || (byte_is 226 c1 && byte_is 129 c2 && byte_is 159 c3)
  || (byte_is 227 c1 && byte_is 128 c2 && byte_is 128 c3)
  || (byte_is 239 c1 && byte_is 187 c2 && byte_is 191 c3).

(** The text after its leading white space. *)
Fixpoint drop_spaces (cs : list ascii) : list ascii :=
  match cs with
  | [] => []
  | c1 :: r1 =>
      if Ascii.is_space c1 then drop_spaces r1
      else
        match r1 with
        | [] => cs
        | c2 :: r2 =>
            if two_byte_space c1 c2 then drop_spaces r2
            else
              match r2 with
              | [] => cs
              | c3 :: r3 =>
                  if three_byte_space c1 c2 c3 then drop_spaces r3 else cs
              end
        end
  end.

(** The same on a text read backwards, the bytes of each character
    reversed. *)
Fixpoint drop_spaces_backwards (cs : list ascii) : list ascii :=
  match cs with
  | [] => []
  | c1 :: r1 =>
      if Ascii.is_space c1 then drop_spaces_backwards r1
      else
        match r1 with
        | [] => cs
        | c2 :: r2 =>
            if two_byte_space c2 c1 then drop_spaces_backwards r2
            else
              match r2 with
              | [] => cs
              | c3 :: r3 =>
                  if three_byte_space c3 c2 c1 then drop_spaces_backwards r3
                  else cs
              end
        end
  end.

Definition trim (cs : list ascii) : list ascii :=
  rev (drop_spaces_backwards (rev (drop_spaces cs))).

(** [StringToNumber]: a blank string is 0, a text that is not a numeric
    literal is [NaN], and a decimal integer literal is that integer.  These
    three cases are the conversion of the language.  A literal with a
    fraction, an exponent, a radix prefix or [Infinity] denotes a number
    outside the number domain above: no property below is stated of such a
    string. *)
Definition StringToNumber (s : string) : number :=
  match trim (list_ascii_of_string s) with
  | [] => Int 0
  | cs => if numeric_literal cs then decimal_integer cs else NaN
  end.

Definition ToNumber (v : value) : number :=
  match v with
  | VUndefined => NaN
  | VNull => Int 0
  | VBool true => Int 1
  | VBool false => Int 0
  | VNumber n => n
  | VString s => StringToNumber s
  end.

(** The comparison of two numbers: undefined ([None]) as soon as one of them
    is [NaN]. *)
Definition number_lt (a b : number) : option bool :=
  match a, b with
  | Int x, Int y => Some (x <? y)
  | _, _ => None
  end.

(** Every relational comparison of the source has a numeric literal on its
    right ([timerValue < 0], [value <= 34], ...), so the left operand is
    converted with [ToNumber]; an undefined comparison is [false]. *)
Definition lt (x : value) (k : Z) : bool :=
  match number_lt (ToNumber x) (Int k) with
  | Some b => b
  | None => false
  end.

Definition gt (x : value) (k : Z) : bool :=
  match number_lt (Int k) (ToNumber x) with
  | Some b => b
  | None => false
  end.

(** [x <= k] is the negation of [k < x], except that it is [false] when
    that comparison is undefined. *)
Definition le (x : value) (k : Z) : bool :=
  match number_lt (Int k) (ToNumber x) with
  | Some b => negb b
  | None => false
  end.

(** [x === k] for a numeric literal [k]: no conversion, the operand must be
    the number itself. *)
Definition strict_eq (x : value) (k : Z) : bool :=
  match x with
  | VNumber (Int z) => z =? k
  | _ => false
  end.

End JS.

Import JS.

(** ** The device, the configuration and the events of a run *)

(** The error an HTTP request is rejected with; the handlers only read its
    [message]. *)
Record error : Type := Error { message : string }.

(** The parsed body of a response: [null] or [undefined], of which no
    property can be read, or a value with properties, given as the mapping
    from its keys to their values.  For the JSON object the device sends
    this is the mapping from register keys to values. *)
Inductive body : Type :=
| NullBody
| UndefinedBody
| Properties (m : gmap string value).

(** [b !! key] is the value of the property [key] where the body has it. *)
#[global] Instance body_lookup : Lookup string value body :=
  fun key b =>
    match b with
    | Properties m => m !! key
    | NullBody | UndefinedBody => None
    end.

#[global] Instance body_empty : Empty body := Properties ∅.

#[global] Instance body_singleton : SingletonM string value body :=
  fun key v => Properties {[ key := v ]}.

(** The response of the HTTP client; only its parsed body [data] is read. *)
Record response : Type := Response { data : body }.

Inductive outcome : Type :=
| Resolved (r : response)
| Rejected (e : error).

(** [this.config] *)
Record config : Type := Config { ip : string; name : string }.

(** One constructor for each template literal handed to [this.log], holding
    the values interpolated into it. *)
Inductive log_entry : Type :=
| RetryFailed (msg : string)
| Retrying (attempt retries : nat) (msg : string)
| SetActiveSending (url : string)
| SetActiveDone (state : string)
| GetActiveSending (url : string)
| GetActiveState (state : string)
| SetRotationSpeedSetting (speed : Z) (v : value)
| SetRotationSpeedDone (speed : Z)
| GetRotationSpeedSending (url : string)
| GetRotationSpeedCurrent (speed : value) (percentage : Z)
| RefreshSending (url : string)
| RefreshStarted
| TimerFetching (url : string)
| TimerCurrent (timerValue : value)
| TimerError (msg : string).

(** The function armed by [setRefresh]:
    [refreshService.getCharacteristic(Characteristic.On).updateValue(v)]. *)
Inductive callback : Type :=
| RefreshOnUpdateValue (v : value).

Inductive event : Type :=
| Get (url : string) (o : outcome)
    (** [axiosInstance.get(url)] and how it settled *)
| Log (l : log_entry)
    (** [this.log(...)] *)
| Sleep (ms : Z)
    (** [await new Promise((resolve) => setTimeout(resolve, ms))] *)
| SetTimeout (cb : callback) (ms : Z).
    (** [setTimeout(cb, ms)], armed and not awaited *)

(** Observations on a list of events. *)
Definition requests (es : list event) : list string :=
  omap (fun e => match e with Get url _ => Some url | _ => None end) es.

Definition failures (es : list event) : list error :=
  omap (fun e => match e with Get _ (Rejected err) => Some err | _ => None end) es.

Definition successes (es : list event) : list response :=
  omap (fun e => match e with Get _ (Resolved r) => Some r | _ => None end) es.

Definition sleeps (es : list event) : list Z :=
  omap (fun e => match e with Sleep ms => Some ms | _ => None end) es.

Definition timeouts (es : list event) : list (callback * Z) :=
  omap (fun e => match e with SetTimeout cb ms => Some (cb, ms) | _ => None end) es.

(** The messages of the failures reported to the log by [retryRequest]. *)
Definition failure_reports (es : list event) : list string :=
  omap (fun e => match e with
                 | Log (RetryFailed msg) | Log (Retrying _ _ msg) => Some msg
                 | _ => None
                 end) es.

(** The double quote character of the URL templates. *)
Definition dquote : string := String "034"%char EmptyString.

(** ** The handlers *)

Inductive result (A : Type) : Type :=
| Return (a : A)
| Throw (e : error).
Arguments Return {A} a.
Arguments Throw {A} e.

(** [response.data[key]] on a response: the value read, or the
    [TypeError] thrown. *)
Definition property (r : response) (key : string) : result value :=
  match data r with
  | NullBody =>
      Throw (Error ("Cannot read properties of null (reading '" +:+ key +:+ "')"))
  | UndefinedBody =>
      Throw (Error ("Cannot read properties of undefined (reading '" +:+ key +:+ "')"))
  | Properties m => Return (default VUndefined (m !! key))
  end.

Section Accessory.

(** The device behind the HTTP endpoint is any state machine: [serve d url]
    is how a GET of [url] settles in device state [d] (a rejection also
    stands for a request that ran into the 20 second timeout of the client)
    and the device state afterwards. *)
Variable D : Type.
Variable serve : D -> string -> outcome * D.
Variable cfg : config.

(** What running a computation from a device state yields: its result, the
    device state it leaves and the events it produced, oldest first. *)
Record run (A : Type) : Type := Run { res : result A; dev : D; evs : list event }.
Arguments Run {A} res dev evs.
Arguments res {A} r.
Arguments dev {A} r.
Arguments evs {A} r.

Definition M (A : Type) : Type := D -> run A.

Definition ret {A} (a : A) : M A := fun d => Run (Return a) d [].

Definition throw {A} (e : error) : M A := fun d => Run (Throw e) d [].

Definition bind {A B} (m : M A) (k : A -> M B) : M B :=
  fun d =>
    let r := m d in
    match res r with
    | Return a => let r' := k a (dev r) in Run (res r') (dev r') (evs r ++ evs r')
    | Throw e => Run (Throw e) (dev r) (evs r)
    end.

(** [try { m } catch (error) { h error }] *)
Definition try_catch {A} (m : M A) (h : error -> M A) : M A :=
  fun d =>
    let r := m d in
    match res r with
    | Return a => r
    | Throw e => let r' := h e (dev r) in Run (res r') (dev r') (evs r ++ evs r')
    end.

Definition emit (e : event) : M unit := fun d => Run (Return tt) d [e].

Notation "x <- m ;; k" := (bind m (fun x => k))
  (at level 100, m at next level, right associativity).
Notation "m ;; k" := (bind m (fun _ => k))
  (at level 100, right associativity).

(** [this.log(entry)] *)
Definition log (l : log_entry) : M unit := emit (Log l).

(** [await new Promise((resolve) => setTimeout(resolve, ms))] *)
Definition sleep (ms : Z) : M unit := emit (Sleep ms).

(** [setTimeout(cb, ms)] *)
Definition setTimeout (cb : callback) (ms : Z) : M unit := emit (SetTimeout cb ms).

(** [await this.axiosInstance.get(url)] *)
Definition axios_get (url : string) : M response :=
  fun d =>
    let '(o, d') := serve d url in
    Run (match o with Resolved r => Return r | Rejected e => Throw e end)
        d' [Get url o].

(** The loop of [retryRequest].  [i] is the loop counter and [remaining]
    the number of iterations left, [retries - i]: the loop test [i < retries]
    holds exactly while [remaining] is positive.  Falling out of the loop
    returns [undefined], here [None]. *)
Fixpoint retryRequest_loop (url : string) (retries remaining i : nat)
  : M (option response) :=
  match remaining with
  | O => ret None
  | S remaining' =>
      try_catch
        (r <- axios_get url ;; ret (Some r))
        (fun error =>
           if (i =? retries - 1)%nat then
             log (RetryFailed (message error)) ;;
             throw error
           else
             log (Retrying (i + 1) retries (message error)) ;;
             sleep 1000 ;;
             retryRequest_loop url retries remaining' (i + 1))
  end.

Definition retryRequest (url : string) (retries : nat) : M (option response) :=
  retryRequest_loop url retries retries 0.

(** [response.data[key]]: reading a property of [undefined] or of [null]
    throws a [TypeError], be it [data] of an undefined response or [key] of
    such a body; a key absent from the body reads as [undefined]. *)
Definition response_data (r : option response) (key : string) : M value :=
  match r with
  | None =>
      throw (Error "Cannot read properties of undefined (reading 'data')")
  | Some r =>
      match property r key with
      | Return v => ret v
      | Throw e => throw e
      end
  end.

Definition setActive (v : value) : M unit :=
  let url := "http://" +:+ ip cfg +:+ "/mwrite?{" +:+ dquote +:+ "1130" +:+ dquote
             +:+ ":" +:+ (if ToBoolean v then "1" else "0") +:+ "}" in
  log (SetActiveSending url) ;;
  _ <- retryRequest url 3 ;;
  log (SetActiveDone (if ToBoolean v then "ON" else "OFF")).

(** [response.data["1130"] > 0] *)
Definition isActive (v : value) : bool := gt v 0.

Definition getActive : M Z :=
  let url := "http://" +:+ ip cfg +:+ "/mread?{" +:+ dquote +:+ "1130" +:+ dquote
             +:+ ":1}" in
  log (GetActiveSending url) ;;
  response <- retryRequest url 3 ;;
  v <- response_data response "1130" ;;
  log (GetActiveState (if isActive v then "ON" else "OFF")) ;;
  ret (if isActive v then 1 else 0).

(** The [if] chain of [setRotationSpeed] that picks the device level. *)
Definition speed (v : value) : Z :=
  if strict_eq v 0 then 0
  else if le v 34 then 2
  else if le v 57 then 3
  else 4.

Definition setRotationSpeed (v : value) : M unit :=
  let url := "http://" +:+ ip cfg +:+ "/mwrite?{" +:+ dquote +:+ "1130" +:+ dquote
             +:+ ":" +:+ pretty (speed v) +:+ "}" in
  log (SetRotationSpeedSetting (speed v) v) ;;
  _ <- retryRequest url 3 ;;
  log (SetRotationSpeedDone (speed v)).

(** [speed === 2 ? 25 : speed === 3 ? 45 : speed === 4 ? 70 : 0] *)
Definition percentage (v : value) : Z :=
  if strict_eq v 2 then 25
  else if strict_eq v 3 then 45
  else if strict_eq v 4 then 70
  else 0.

Definition getRotationSpeed : M Z :=
  let url := "http://" +:+ ip cfg +:+ "/mread?{" +:+ dquote +:+ "1130" +:+ dquote
             +:+ ":1}" in
  log (GetRotationSpeedSending url) ;;
  response <- retryRequest url 3 ;;
  v <- response_data response "1130" ;;
  log (GetRotationSpeedCurrent v (percentage v)) ;;
  ret (percentage v).

Definition setRefresh (v : value) : M unit :=
  if negb (ToBoolean v) then ret tt
  else
    let writeUrl := "http://" +:+ ip cfg +:+ "/mwrite?{" +:+ dquote +:+ "1161"
                    +:+ dquote +:+ ":4}" in
    log (RefreshSending writeUrl) ;;
    _ <- retryRequest writeUrl 3 ;;
    log RefreshStarted ;;
    setTimeout (RefreshOnUpdateValue (VBool false)) 1000.

(** The clamping of [getTimer]: the two comparisons and the assignments
    they guard. *)
Definition timerValue (v : value) : value :=
  if lt v 0 then VNumber (Int 0)
  else if gt v 100 then VNumber (Int 100)
  else v.

Definition getTimer : M value :=
  let url := "http://" +:+ ip cfg +:+ "/mread?{" +:+ dquote +:+ "1110" +:+ dquote
             +:+ ":2}" in
  log (TimerFetching url) ;;
  try_catch
    (response <- retryRequest url 3 ;;
     v <- response_data response "1110" ;;
     log (TimerCurrent (timerValue v)) ;;
     ret (timerValue v))
    (fun error =>
       log (TimerError (message error)) ;;
       ret (VNumber (Int 0))).

(** The URLs of the device's two endpoints, as the templates above spell
    them. *)
Definition mwrite (register payload : string) : string :=
  "http://" +:+ ip cfg +:+ "/mwrite?{" +:+ dquote +:+ register +:+ dquote
  +:+ ":" +:+ payload +:+ "}".

Definition mread (register count : string) : string :=
  "http://" +:+ ip cfg +:+ "/mread?{" +:+ dquote +:+ register +:+ dquote
  +:+ ":" +:+ count +:+ "}".

End Accessory.

Arguments Run {D A} res dev evs.
Arguments res {D A} r.
Arguments dev {D A} r.
Arguments evs {D A} r.

(** A device driven by a script: each request is settled by the next entry
    of the script, whatever its URL; once the script is used up every request
    is rejected. *)
Definition scripted (d : list outcome) (url : string) : outcome * list outcome :=
  match d with
  | o :: d' => (o, d')
  | [] => (Rejected (Error "timeout of 20000ms exceeded"), [])
  end.

(** A response whose body maps one register key to a value. *)
Definition reading (key : string) (v : value) : response :=
  Response {[ key := v ]}.

Definition home : config := Config "192.168.1.50" "Ventilation".

Arguments ret {D A} a _.
Arguments throw {D A} e _.
Arguments bind {D A B} m k _.
Arguments try_catch {D A} m h _.
Arguments emit {D} e _.
Arguments log {D} l _.
Arguments sleep {D} ms _.
Arguments setTimeout {D} cb ms _.
Arguments axios_get {D} serve url _.
Arguments retryRequest_loop {D} serve url retries remaining i _.
Arguments retryRequest {D} serve url retries _.
Arguments response_data {D} r key _.
Arguments setActive {D} serve cfg v _.
Arguments getActive {D} serve cfg _.
Arguments setRotationSpeed {D} serve cfg v _.
Arguments getRotationSpeed {D} serve cfg _.
Arguments setRefresh {D} serve cfg v _.
Arguments getTimer {D} serve cfg _.

(** ** Successive attempts

    [attempts serve url n d es o d'] describes up to [n] successive GETs of
    [url] from device state [d]: the requests rejected with the errors [es],
    in this order, are followed by one last request that settles as [o] and
    leaves the device in [d'].  The last request is either the first one that
    is resolved or the [n]-th one. *)
Inductive attempts {D} (serve : D -> string -> outcome * D) (url : string)
  : nat -> D -> list error -> outcome -> D -> Prop :=
| attempts_resolved n d r d' :
    serve d url = (Resolved r, d') ->
    attempts serve url (S n) d [] (Resolved r) d'
| attempts_exhausted d e d' :
    serve d url = (Rejected e, d') ->
    attempts serve url 1 d [] (Rejected e) d'
| attempts_retry n d e d' es o d'' :
    serve d url = (Rejected e, d') ->
    attempts serve url (S n) d' es o d'' ->
    attempts serve url (S (S n)) d (e :: es) o d''.

(** The events [retryRequest] produces for such attempts, the first of them
    made with loop counter [i]. *)
Fixpoint retry_events (url : string) (retries i : nat) (es : list error)
  (o : outcome) : list event :=
  match es with
  | e :: es' =>
      [Get url (Rejected e); Log (Retrying (i + 1) retries (message e)); Sleep 1000]
      ++ retry_events url retries (i + 1) es' o
  | [] =>
      match o with
      | Resolved r => [Get url o]
      | Rejected e => [Get url o; Log (RetryFailed (message e))]
      end
  end.

(** What [retryRequest] hands back to its caller for the last request. *)
Definition retry_result (o : outcome) : result (option response) :=
  match o with
  | Resolved r => Return (Some r)
  | Rejected e => Throw e
  end.

(** The error three attempts in a row are rejected with, if they all are:
    the error of the third. *)
Definition exhausted {D} (serve : D -> string -> outcome * D) (url : string)
  (d : D) : option error :=
  match serve d url with
  | (Rejected _, d1) =>
      match serve d1 url with
      | (Rejected _, d2) =>
          match serve d2 url with
          | (Rejected e, _) => Some e
          | _ => None
          end
      | _ => None
      end
  | _ => None
  end.

(** ** Values that are not numbers *)

(** The values other than integers that the comparisons of the clamping
    convert to [NaN] or to a number between 0 and 100: [undefined] (also
    read for a missing key), [null] and [false] (converted to 0), [true]
    (converted to 1), [NaN], a string that is blank or not a numeric literal,
    and a string that spells an integer between 0 and 100. *)
Inductive unclamped : value -> Prop :=
| unclamped_undefined : unclamped VUndefined
| unclamped_null : unclamped VNull
| unclamped_bool b : unclamped (VBool b)
| unclamped_nan : unclamped (VNumber NaN)
| unclamped_text s :
    numeric_literal (trim (list_ascii_of_string s)) = false ->
    unclamped (VString s)
| unclamped_integer_string s z :
    StringToNumber s = Int z -> 0 <= z <= 100 ->
    unclamped (VString s).

(** A number between 0 and 100. *)
Definition in_range (v : value) : Prop :=
  exists z, v = VNumber (Int z) /\ 0 <= z <= 100.

(** ** The accessory object and its hooks *)

(** The host's service classes the constructor instantiates. *)
Inductive service_type : Type :=
| Fanv2
| Switch
| BatteryService.

(** [new Service.X(displayName)] *)
Record service : Type := Service { stype : service_type; displayName : string }.

(** The three service handles the constructor stores in [this]. *)
Record accessory : Type := Accessory {
  fanService : service;
  refreshService : service;
  timerService : service
}.

Definition constructor (cfg : config) : accessory :=
  {| fanService := Service Fanv2 (name cfg +:+ " Fan");
     refreshService := Service Switch (name cfg +:+ " Refresh");
     timerService := Service BatteryService (name cfg +:+ " Timer") |}.

Definition getServices (a : accessory) : list service :=
  [fanService a; refreshService a; timerService a].

Inductive characteristic : Type :=
| Active
| RotationSpeed
| On
| BatteryLevel.

(** The handlers registered on one characteristic with [onSet] and [onGet];
    a get handler hands the host a value. *)
Record hooks (D : Type) : Type := Hooks {
  onSet : option (value -> D -> run D unit);
  onGet : option (D -> run D value)
}.
Arguments Hooks {D} onSet onGet.
Arguments onSet {D} h.
Arguments onGet {D} h.

(** The number a handler returns, as the value the host receives. *)
Definition returning_number {D} (m : D -> run D Z) : D -> run D value :=
  fun d =>
    Run (match res (m d) with
         | Return z => Return (VNumber (Int z))
         | Throw e => Throw e
         end)
        (dev (m d)) (evs (m d)).

(** [setupCharacteristics]: the handlers bound to each characteristic of each
    service, in the order of the source. *)
Definition setupCharacteristics {D} (serve : D -> string -> outcome * D)
    (cfg : config) (a : accessory)
  : list (service * characteristic * hooks D) :=
  [ (fanService a, Active,
     Hooks (Some (setActive serve cfg))
           (Some (returning_number (getActive serve cfg))));
    (fanService a, RotationSpeed,
     Hooks (Some (setRotationSpeed serve cfg))
           (Some (returning_number (getRotationSpeed serve cfg))));
    (refreshService a, On,
     Hooks (Some (setRefresh serve cfg)) None);
    (timerService a, BatteryLevel,
     Hooks None (Some (getTimer serve cfg))) ].

(** The numbering [(attempt, retries)] of the retries announced in the
    log. *)
Definition retry_numbers (es : list event) : list (nat * nat) :=
  omap (fun e => match e with
                 | Log (Retrying attempt retries _) => Some (attempt, retries)
                 | _ => None
                 end) es.

(** * Properties *)

(** ** Observations distribute over the events of a run *)

Lemma requests_app (a b : list event) : requests (a ++ b) = requests a ++ requests b.
Proof. apply omap_app. Qed.

Lemma successes_app (a b : list event) :
  successes (a ++ b) = successes a ++ successes b.
Proof. apply omap_app. Qed.

Lemma sleeps_app (a b : list event) : sleeps (a ++ b) = sleeps a ++ sleeps b.
Proof. apply omap_app. Qed.

Lemma timeouts_app (a b : list event) : timeouts (a ++ b) = timeouts a ++ timeouts b.
Proof. apply omap_app. Qed.

Lemma failure_reports_app (a b : list event) :
  failure_reports (a ++ b) = failure_reports a ++ failure_reports b.
Proof. apply omap_app. Qed.

(** ** The events of the retry loop *)

Section RetryEvents.

Variables (url : string) (retries : nat).

Lemma retry_events_requests i es o :
  requests (retry_events url retries i es o) = replicate (S (length es)) url.
Proof.
  revert i. induction es as [|e es IH]; intros i; simpl.
  - destruct o; reflexivity.
  - f_equal. apply IH.
Qed.

Lemma retry_events_sleeps i es o :
  sleeps (retry_events url retries i es o) = replicate (length es) 1000.
Proof.
  revert i. induction es as [|e es IH]; intros i; simpl.
  - destruct o; reflexivity.
  - f_equal. apply IH.
Qed.

Lemma retry_events_successes i es o :
  successes (retry_events url retries i es o)
  = match o with Resolved r => [r] | Rejected _ => [] end.
Proof.
  revert i. induction es as [|e es IH]; intros i; simpl.
  - destruct o; reflexivity.
  - apply IH.
Qed.

Lemma retry_events_reports i es o :
  failure_reports (retry_events url retries i es o)
  = map message (failures (retry_events url retries i es o)).
Proof.
  revert i. induction es as [|e es IH]; intros i; simpl.
  - destruct o; reflexivity.
  - f_equal. apply IH.
Qed.

Lemma retry_events_timeouts i es o :
  timeouts (retry_events url retries i es o) = [].
Proof.
  revert i. induction es as [|e es IH]; intros i; simpl.
  - destruct o; reflexivity.
  - apply IH.
Qed.

Lemma retry_events_resolved i es o u r :
  In (Get u (Resolved r)) (retry_events url retries i es o) -> o = Resolved r.
Proof.
  revert i. induction es as [|e es IH]; intros i; simpl.
  - destruct o; simpl; intros [H | H]; try congruence; try tauto.
    destruct H as [H | []]. discriminate.
  - intros [H | [H | [H | H]]]; try discriminate. eapply IH, H.
Qed.

End RetryEvents.

(** ** The retry loop *)

Section Retry.

Context {D : Type} (serve : D -> string -> outcome * D).

Lemma attempts_length url n d es o d' :
  attempts serve url n d es o d' -> (length es < n)%nat.
Proof. induction 1; simpl; lia. Qed.

(** The requests before the last one were all rejected, and a rejected last
    request is the [n]-th. *)
Lemma attempts_rejected_last url n d es e d' :
  attempts serve url n d es (Rejected e) d' -> S (length es) = n.
Proof.
  intros H. remember (Rejected e) as o eqn:Ho.
  induction H; simpl; try discriminate; auto.
Qed.

(** The loop run with [remaining] iterations left makes [attempts] and
    produces [retry_events]. *)
Lemma retryRequest_loop_run url retries remaining i d :
  (0 < remaining)%nat ->
  (i + remaining = retries)%nat ->
  exists es o d',
    attempts serve url remaining d es o d'
    /\ retryRequest_loop serve url retries remaining i d
       = Run (retry_result o) d' (retry_events url retries i es o).
Proof.
  revert i d. induction remaining as [|remaining IH]; intros i d Hpos Hsum.
  - lia.
  - simpl. unfold try_catch, bind, axios_get. simpl.
    destruct (serve d url) as [[r | e] d1] eqn:Hserve; simpl.
    + exists [], (Resolved r), d1. split; [now constructor | reflexivity].
    + destruct (Nat.eqb_spec i (retries - 1)) as [Hlast | Hmore]; simpl.
      * assert (remaining = 0%nat) as -> by lia.
        exists [], (Rejected e), d1. split; [now constructor | reflexivity].
      * destruct remaining as [|remaining']; [lia |].
        destruct (IH (i + 1)%nat d1) as (es & o & d' & Hatt & Hrun); [lia | lia |].
        exists (e :: es), o, d'. split.
        -- eapply attempts_retry; eassumption.
        -- rewrite Hrun. reflexivity.
Qed.

Lemma retryRequest_run url retries d :
  (0 < retries)%nat ->
  exists es o d',
    attempts serve url retries d es o d'
    /\ retryRequest serve url retries d
       = Run (retry_result o) d' (retry_events url retries 0 es o).
Proof. intros H. apply retryRequest_loop_run; lia. Qed.

(** With no iteration to run the loop falls through and returns
    [undefined] without a request. *)
Lemma retryRequest_zero url d :
  retryRequest serve url 0 d = Run (Return None) d [].
Proof. reflexivity. Qed.

(** The three cases of three attempts. *)
Lemma attempts_three url d es o d' :
  attempts serve url 3 d es o d' ->
  (exists r, es = [] /\ o = Resolved r /\ serve d url = (Resolved r, d'))
  \/ (exists e1 d1 r, es = [e1] /\ o = Resolved r
        /\ serve d url = (Rejected e1, d1) /\ serve d1 url = (Resolved r, d'))
  \/ (exists e1 d1 e2 d2, es = [e1; e2]
        /\ serve d url = (Rejected e1, d1) /\ serve d1 url = (Rejected e2, d2)
        /\ serve d2 url = (o, d')).
Proof.
  intros H. inversion H as [? ? r ? H1 | | ? ? e1 d1 es1 ? ? H1 H2]; subst.
  - left. eauto.
  - right.
    inversion H2 as [? ? r ? H3 | | ? ? e2 d2 es2 ? ? H3 H4]; subst.
    + left. exists e1, d1, r. auto.
    + right. exists e1, d1, e2, d2.
      inversion H4 as [? ? r ? H5 | ? e3 ? H5 | ]; subst; auto.
Qed.

End Retry.

(** ** The handlers around the retry loop *)

Section Handlers.

Context {D : Type} (serve : D -> string -> outcome * D) (cfg : config).

(** Every handler logs an entry, runs [retryRequest] with the default of
    three retries and continues with the response; a rejection of the last
    request skips the continuation. *)
Lemma log_retry_run {A} (l : log_entry) (url : string)
    (k : option response -> D -> run D A) (d : D) :
  exists es o d',
    attempts serve url 3 d es o d'
    /\ bind (log l) (fun _ => bind (retryRequest serve url 3) k) d
       = match o with
         | Resolved r =>
             Run (res (k (Some r) d')) (dev (k (Some r) d'))
                 (Log l :: retry_events url 3 0 es o ++ evs (k (Some r) d'))
         | Rejected e => Run (Throw e) d' (Log l :: retry_events url 3 0 es o)
         end.
Proof.
  destruct (retryRequest_run serve url 3 d) as (es & o & d' & Hatt & Hrun); [lia |].
  exists es, o, d'. split; [exact Hatt |].
  unfold bind at 1 2. simpl. rewrite Hrun. destruct o; reflexivity.
Qed.

(** The pure parts of the handlers on integers. *)
Lemma speed_int (p : Z) :
  speed (VNumber (Int p))
  = if p =? 0 then 0 else if p <=? 34 then 2 else if p <=? 57 then 3 else 4.
Proof.
  unfold speed, strict_eq, le. simpl.
  rewrite <- !Z.leb_antisym. reflexivity.
Qed.

Lemma percentage_int (v : Z) :
  percentage (VNumber (Int v))
  = if v =? 2 then 25 else if v =? 3 then 45 else if v =? 4 then 70 else 0.
Proof. reflexivity. Qed.

Lemma isActive_int (v : Z) : isActive (VNumber (Int v)) = (0 <? v).
Proof. reflexivity. Qed.

Lemma timerValue_int (v : Z) :
  timerValue (VNumber (Int v))
  = VNumber (Int (if v <? 0 then 0 else if 100 <? v then 100 else v)).
Proof.
  unfold timerValue, lt, gt. simpl.
  destruct (v <? 0); [reflexivity |]. destruct (100 <? v); reflexivity.
Qed.

(** The runs of the handlers. *)
Lemma setActive_run (v : value) (d : D) :
  let url := mwrite cfg "1130" (if ToBoolean v then "1" else "0") in
  exists es o d',
    attempts serve url 3 d es o d'
    /\ setActive serve cfg v d
       = match o with
         | Resolved r =>
             Run (Return tt) d'
                 (Log (SetActiveSending url) :: retry_events url 3 0 es o
                  ++ [Log (SetActiveDone (if ToBoolean v then "ON" else "OFF"))])
         | Rejected e =>
             Run (Throw e) d' (Log (SetActiveSending url) :: retry_events url 3 0 es o)
         end.
Proof. intros url. apply log_retry_run. Qed.

Lemma setRotationSpeed_run (v : value) (d : D) :
  let url := mwrite cfg "1130" (pretty (speed v)) in
  exists es o d',
    attempts serve url 3 d es o d'
    /\ setRotationSpeed serve cfg v d
       = match o with
         | Resolved r =>
             Run (Return tt) d'
                 (Log (SetRotationSpeedSetting (speed v) v) :: retry_events url 3 0 es o
                  ++ [Log (SetRotationSpeedDone (speed v))])
         | Rejected e =>
             Run (Throw e) d'
                 (Log (SetRotationSpeedSetting (speed v) v) :: retry_events url 3 0 es o)
         end.
Proof. intros url. apply log_retry_run. Qed.

Lemma getActive_run (d : D) :
  let url := mread cfg "1130" "1" in
  exists es o d',
    attempts serve url 3 d es o d'
    /\ getActive serve cfg d
       = match o with
         | Resolved r =>
             match property r "1130" with
             | Return v =>
                 Run (Return (if isActive v then 1 else 0)) d'
                     (Log (GetActiveSending url) :: retry_events url 3 0 es o
                      ++ [Log (GetActiveState (if isActive v then "ON" else "OFF"))])
             | Throw e =>
                 Run (Throw e) d'
                     (Log (GetActiveSending url) :: retry_events url 3 0 es o)
             end
         | Rejected e =>
             Run (Throw e) d' (Log (GetActiveSending url) :: retry_events url 3 0 es o)
         end.
Proof.
  intros url.
  destruct (retryRequest_run serve url 3 d) as (es & o & d' & Hatt & Hrun); [lia |].
  exists es, o, d'. split; [exact Hatt |].
  unfold getActive, bind. simpl.
  change ("http://" +:+ ip cfg +:+ "/mread?{" +:+ dquote +:+ "1130" +:+ dquote +:+ ":1}")
    with url.
  rewrite Hrun. destruct o as [r | e]; [| reflexivity].
  simpl. destruct (property r "1130"); simpl; rewrite ?app_nil_r; reflexivity.
Qed.

Lemma getRotationSpeed_run (d : D) :
  let url := mread cfg "1130" "1" in
  exists es o d',
    attempts serve url 3 d es o d'
    /\ getRotationSpeed serve cfg d
       = match o with
         | Resolved r =>
             match property r "1130" with
             | Return v =>
                 Run (Return (percentage v)) d'
                     (Log (GetRotationSpeedSending url) :: retry_events url 3 0 es o
                      ++ [Log (GetRotationSpeedCurrent v (percentage v))])
             | Throw e =>
                 Run (Throw e) d'
                     (Log (GetRotationSpeedSending url) :: retry_events url 3 0 es o)
             end
         | Rejected e =>
             Run (Throw e) d'
                 (Log (GetRotationSpeedSending url) :: retry_events url 3 0 es o)
         end.
Proof.
  intros url.
  destruct (retryRequest_run serve url 3 d) as (es & o & d' & Hatt & Hrun); [lia |].
  exists es, o, d'. split; [exact Hatt |].
  unfold getRotationSpeed, bind. simpl.
  change ("http://" +:+ ip cfg +:+ "/mread?{" +:+ dquote +:+ "1130" +:+ dquote +:+ ":1}")
    with url.
  rewrite Hrun. destruct o as [r | e]; [| reflexivity].
  simpl. destruct (property r "1130"); simpl; rewrite ?app_nil_r; reflexivity.
Qed.

Lemma setRefresh_run (v : value) (d : D) :
  ToBoolean v = true ->
  let url := mwrite cfg "1161" "4" in
  exists es o d',
    attempts serve url 3 d es o d'
    /\ setRefresh serve cfg v d
       = match o with
         | Resolved r =>
             Run (Return tt) d'
                 (Log (RefreshSending url) :: retry_events url 3 0 es o
                  ++ [Log RefreshStarted;
                      SetTimeout (RefreshOnUpdateValue (VBool false)) 1000])
         | Rejected e =>
             Run (Throw e) d' (Log (RefreshSending url) :: retry_events url 3 0 es o)
         end.
Proof.
  intros Hv url. unfold setRefresh. rewrite Hv. simpl. apply log_retry_run.
Qed.

Lemma getTimer_run (d : D) :
  let url := mread cfg "1110" "2" in
  exists es o d',
    attempts serve url 3 d es o d'
    /\ getTimer serve cfg d
       = match o with
         | Resolved r =>
             match property r "1110" with
             | Return v =>
                 Run (Return (timerValue v)) d'
                     (Log (TimerFetching url) :: retry_events url 3 0 es o
                      ++ [Log (TimerCurrent (timerValue v))])
             | Throw e =>
                 Run (Return (VNumber (Int 0))) d'
                     (Log (TimerFetching url) :: retry_events url 3 0 es o
                      ++ [Log (TimerError (message e))])
             end
         | Rejected e =>
             Run (Return (VNumber (Int 0))) d'
                 (Log (TimerFetching url) :: retry_events url 3 0 es o
                  ++ [Log (TimerError (message e))])
         end.
Proof.
  intros url.
  destruct (retryRequest_run serve url 3 d) as (es & o & d' & Hatt & Hrun); [lia |].
  exists es, o, d'. split; [exact Hatt |].
  unfold getTimer, bind, try_catch. simpl.
  change ("http://" +:+ ip cfg +:+ "/mread?{" +:+ dquote +:+ "1110" +:+ dquote +:+ ":2}")
    with url.
  rewrite Hrun. destruct o as [r | e]; [| reflexivity].
  simpl. destruct (property r "1110"); simpl; rewrite ?app_nil_r; reflexivity.
Qed.

(** A property the body has is the value read. *)
Lemma property_data (r : response) (key : string) (v : value) :
  data r !! key = Some v -> property r key = Return v.
Proof.
  unfold property. destruct (data r) as [| | m]; intros H; try discriminate H.
  change (m !! key = Some v) in H. now rewrite H.
Qed.

End Handlers.

(** ** Reading a run backwards *)

Lemma in_requests (u : string) (o : outcome) (es : list event) :
  In (Get u o) es -> In u (requests es).
Proof.
  induction es as [|x es IH]; simpl; [tauto |].
  intros [-> | H]; simpl; [now left |].
  destruct x; simpl; auto.
Qed.

(** A resolved request among the events of a handler is the last request of
    its retry loop. *)
Lemma handler_resolved (l : log_entry) (url : string) (n i : nat)
    (es : list error) (o : outcome) (tail : list event) (u : string)
    (r : response) :
  requests tail = [] ->
  In (Get u (Resolved r)) (Log l :: retry_events url n i es o ++ tail) ->
  o = Resolved r.
Proof.
  intros Htail [H | H]; [discriminate |].
  apply in_app_or in H as [H | H].
  - eapply retry_events_resolved, H.
  - apply in_requests in H. rewrite Htail in H. destruct H.
Qed.

Lemma handler_resolved_nil (l : log_entry) (url : string) (n i : nat)
    (es : list error) (o : outcome) (u : string) (r : response) :
  In (Get u (Resolved r)) (Log l :: retry_events url n i es o) ->
  o = Resolved r.
Proof.
  intros H. apply (handler_resolved l url n i es o [] u r); [reflexivity |].
  now rewrite app_nil_r.
Qed.

(** The outcome [o] of the last request of a handler, when [Hin] finds a
    resolved request among its events. *)
Ltac last_resolved Hin o :=
  destruct o;
  [ try match type of Hin with
        | context [property ?r ?k] => destruct (property r k)
        end
  | ];
  cbn beta iota zeta delta [evs] in Hin;
  first [ eapply handler_resolved in Hin; [| reflexivity]
        | apply handler_resolved_nil in Hin ];
  first [ exact Hin | discriminate Hin ].

Lemma attempts_exhausted_last {D} (serve : D -> string -> outcome * D)
    (url : string) (d : D) (es : list error) (o : outcome) (d' : D) (e : error) :
  attempts serve url 3 d es o d' ->
  exhausted serve url d = Some e ->
  o = Rejected e /\ length es = 2%nat.
Proof.
  intros Hatt. unfold exhausted.
  apply attempts_three in Hatt
    as [(r & -> & -> & H1)
       | [(e1 & d1 & r & -> & -> & H1 & H2)
         | (e1 & d1 & e2 & d2 & -> & H1 & H2 & H3)]].
  - rewrite H1. discriminate.
  - rewrite H1, H2. discriminate.
  - rewrite H1, H2, H3. destruct o; [discriminate |].
    intros [= ->]. split; reflexivity.
Qed.

Lemma last_cons_app {A} (x : A) (l : list A) (y : A) :
  last (x :: l ++ [y]) = Some y.
Proof. rewrite app_comm_cons. apply last_snoc. Qed.

(** Three requests whose outcomes are known: the loop is run through. *)
Ltac unroll_retry H1 H2 H3 :=
  unfold retryRequest, retryRequest_loop, try_catch, bind, axios_get;
  rewrite H1; simpl; rewrite H2; simpl; rewrite H3; simpl.

(** ** Values that pass the clamping unchanged *)

Lemma StringToNumber_not_literal (s : string) :
  numeric_literal (trim (list_ascii_of_string s)) = false ->
  StringToNumber s = Int 0 \/ StringToNumber s = NaN.
Proof.
  unfold StringToNumber. intros Hlit.
  destruct (trim (list_ascii_of_string s)) as [|c cs]; [now left |].
  rewrite Hlit. now right.
Qed.

Lemma unclamped_ToNumber (v : value) :
  unclamped v ->
  ToNumber v = NaN \/ exists z, ToNumber v = Int z /\ 0 <= z <= 100.
Proof.
  intros [| | [|] | | s Hlit | s z Hz Hrange]; simpl; auto.
  - right. exists 0. split; [reflexivity | lia].
  - right. exists 1. split; [reflexivity | lia].
  - right. exists 0. split; [reflexivity | lia].
  - destruct (StringToNumber_not_literal s Hlit) as [-> | ->]; auto.
    right. exists 0. split; [reflexivity | lia].
  - right. eauto.
Qed.

Lemma unclamped_comparisons (v : value) :
  unclamped v -> lt v 0 = false /\ gt v 100 = false.
Proof.
  intros Hv. unfold lt, gt.
  destruct (unclamped_ToNumber v Hv) as [-> | (z & -> & Hz)]; simpl.
  - split; reflexivity.
  - split; [apply Z.ltb_ge | apply Z.ltb_ge]; lia.
Qed.

Lemma unclamped_timerValue (v : value) : unclamped v -> timerValue v = v.
Proof.
  intros Hv. destruct (unclamped_comparisons v Hv) as [Hlt Hgt].
  unfold timerValue. now rewrite Hlt, Hgt.
Qed.

Lemma unclamped_out_of_range (v : value) : unclamped v -> ~ in_range v.
Proof. intros Hv (z & -> & _). inversion Hv. Qed.

(** * The handlers, property by property *)

Section Properties.

Context {D : Type} (serve : D -> string -> outcome * D) (cfg : config).

(** C3. [retryRequest] with its default of three retries, the wrapper of
    every read and write: at most three GETs of the URL are made, with one
    delay of 1000 ms between two successive attempts and none after the
    last; an error is thrown only once all three attempts were made; every
    rejected attempt is reported to the log with its message.
    When the first two attempts are rejected and the third is resolved, the
    response of the third is returned after exactly two delays of 1000 ms.
    When all three are rejected, the error of the third attempt is thrown to
    the caller, message included. *)
Theorem retryRequest_three_attempts (url : string) (d : D) :
  let r := retryRequest serve url 3 d in
  (exists n, (1 <= n <= 3)%nat
     /\ requests (evs r) = replicate n url
     /\ sleeps (evs r) = replicate (n - 1) 1000
     /\ (forall e, res r = Throw e -> n = 3%nat))
  /\ failure_reports (evs r) = map message (failures (evs r))
  /\ (forall e1 d1 e2 d2 resp d3,
        serve d url = (Rejected e1, d1) ->
        serve d1 url = (Rejected e2, d2) ->
        serve d2 url = (Resolved resp, d3) ->
        res r = Return (Some resp)
        /\ sleeps (evs r) = [1000; 1000]
        /\ evs r = [Get url (Rejected e1); Log (Retrying 1 3 (message e1)); Sleep 1000;
                    Get url (Rejected e2); Log (Retrying 2 3 (message e2)); Sleep 1000;
                    Get url (Resolved resp)])
  /\ (forall e1 d1 e2 d2 e3 d3,
        serve d url = (Rejected e1, d1) ->
        serve d1 url = (Rejected e2, d2) ->
        serve d2 url = (Rejected e3, d3) ->
        res r = Throw e3
        /\ sleeps (evs r) = [1000; 1000]
        /\ evs r = [Get url (Rejected e1); Log (Retrying 1 3 (message e1)); Sleep 1000;
                    Get url (Rejected e2); Log (Retrying 2 3 (message e2)); Sleep 1000;
                    Get url (Rejected e3); Log (RetryFailed (message e3))]).
Proof.
  intros r. subst r.
  destruct (retryRequest_run serve url 3 d) as (es & o & d' & Hatt & Hrun); [lia |].
  split; [| split; [| split]].
  - exists (S (length es)). rewrite Hrun. simpl.
    pose proof (attempts_length _ _ _ _ _ _ _ Hatt) as Hlen.
    rewrite retry_events_requests, retry_events_sleeps, Nat.sub_0_r.
    split; [lia | split; [reflexivity | split; [reflexivity |]]].
    intros e. destruct o as [resp | e']; simpl; [discriminate |].
    intros _. eapply attempts_rejected_last, Hatt.
  - rewrite Hrun. simpl. apply retry_events_reports.
  - intros e1 d1 e2 d2 resp d3 H1 H2 H3. unroll_retry H1 H2 H3. auto.
  - intros e1 d1 e2 d2 e3 d3 H1 H2 H3. unroll_retry H1 H2 H3. auto.
Qed.

(** C1. For every percent [p] between 0 and 100, [setRotationSpeed p]
    sends between one and three GETs, each of them the write of register
    1130 with level 0 when [p = 0], level 2 when [1 <= p <= 34], level 3
    when [35 <= p <= 57] and level 4 when [58 <= p <= 100]; so 34 is written
    as level 2 and 57 as level 3. *)
Theorem setRotationSpeed_writes_level (p : Z) (d : D) :
  0 <= p <= 100 ->
  exists n,
    (1 <= n <= 3)%nat
    /\ (p = 0 ->
        requests (evs (setRotationSpeed serve cfg (VNumber (Int p)) d))
        = replicate n (mwrite cfg "1130" "0"))
    /\ (1 <= p <= 34 ->
        requests (evs (setRotationSpeed serve cfg (VNumber (Int p)) d))
        = replicate n (mwrite cfg "1130" "2"))
    /\ (35 <= p <= 57 ->
        requests (evs (setRotationSpeed serve cfg (VNumber (Int p)) d))
        = replicate n (mwrite cfg "1130" "3"))
    /\ (58 <= p <= 100 ->
        requests (evs (setRotationSpeed serve cfg (VNumber (Int p)) d))
        = replicate n (mwrite cfg "1130" "4")).
Proof.
  intros Hp.
  destruct (setRotationSpeed_run serve cfg (VNumber (Int p)) d)
    as (es & o & d' & Hatt & Hrun).
  pose proof (attempts_length _ _ _ _ _ _ _ Hatt) as Hlen.
  assert (requests (evs (setRotationSpeed serve cfg (VNumber (Int p)) d))
          = replicate (S (length es))
              (mwrite cfg "1130" (pretty (speed (VNumber (Int p)))))) as Hreq.
  { rewrite Hrun. destruct o; simpl.
    - rewrite requests_app, retry_events_requests. simpl. now rewrite app_nil_r.
    - now rewrite retry_events_requests. }
  exists (S (length es)). rewrite Hreq, speed_int.
  split; [lia |].
  repeat split; intros Hcase.
  - subst p. reflexivity.
  - destruct (Z.eqb_spec p 0); [lia |].
    destruct (Z.leb_spec p 34); [reflexivity | lia].
  - destruct (Z.eqb_spec p 0); [lia |].
    destruct (Z.leb_spec p 34); [lia |].
    destruct (Z.leb_spec p 57); [reflexivity | lia].
  - destruct (Z.eqb_spec p 0); [lia |].
    destruct (Z.leb_spec p 34); [lia |].
    destruct (Z.leb_spec p 57); [lia | reflexivity].
Qed.

(** C2. When the device answers the read of register 1130 with the integer
    [v], [getRotationSpeed] returns 25 for [v = 2], 45 for [v = 3], 70 for
    [v = 4] and 0 for every other [v], such as 0 and 1. *)
Theorem getRotationSpeed_maps_level (d : D) (r : response) (v : Z) :
  In (Get (mread cfg "1130" "1") (Resolved r)) (evs (getRotationSpeed serve cfg d)) ->
  data r !! "1130" = Some (VNumber (Int v)) ->
  exists q,
    res (getRotationSpeed serve cfg d) = Return q
    /\ (v = 2 -> q = 25)
    /\ (v = 3 -> q = 45)
    /\ (v = 4 -> q = 70)
    /\ (v <> 2 -> v <> 3 -> v <> 4 -> q = 0).
Proof.
  intros Hin Hv.
  destruct (getRotationSpeed_run serve cfg d) as (es & o & d' & Hatt & Hrun).
  rewrite Hrun in Hin |- *.
  assert (o = Resolved r) as ->.
  { last_resolved Hin o. }
  rewrite (property_data _ _ _ Hv). simpl. rewrite percentage_int.
  eexists. split; [reflexivity |].
  repeat split.
  - intros ->. reflexivity.
  - intros ->. reflexivity.
  - intros ->. reflexivity.
  - intros H2 H3 H4.
    destruct (Z.eqb_spec v 2); [lia |].
    destruct (Z.eqb_spec v 3); [lia |].
    destruct (Z.eqb_spec v 4); [lia | reflexivity].
Qed.

(** C7. When the device answers the read of register 1130 with the integer
    [v], [getActive] decides on exactly when [v] is strictly greater than 0:
    it hands the host 1 (active) in that case and 0 (inactive) for [v = 0]
    and for every negative [v]. *)
Theorem getActive_iff_positive (d : D) (r : response) (v : Z) :
  In (Get (mread cfg "1130" "1") (Resolved r)) (evs (getActive serve cfg d)) ->
  data r !! "1130" = Some (VNumber (Int v)) ->
  (isActive (VNumber (Int v)) = true <-> 0 < v)
  /\ exists a,
       res (getActive serve cfg d) = Return a
       /\ (a = 1 <-> 0 < v)
       /\ (a = 0 <-> v <= 0).
Proof.
  intros Hin Hv.
  destruct (getActive_run serve cfg d) as (es & o & d' & Hatt & Hrun).
  rewrite Hrun in Hin |- *.
  assert (o = Resolved r) as ->.
  { last_resolved Hin o. }
  rewrite (property_data _ _ _ Hv). simpl. rewrite isActive_int.
  split; [apply Z.ltb_lt |].
  eexists. split; [reflexivity |].
  destruct (Z.ltb_spec 0 v); split; split; intros; lia.
Qed.

(** C4. When the device answers the read of register 1110 with the integer
    [v], [getTimer] returns [v] clamped into the range 0..100: 0 for
    [v < 0], [v] itself for [0 <= v <= 100] and 100 for [v > 100]; the raw
    values -50, 0, 50, 100 and 150 give 0, 0, 50, 100 and 100. *)
Theorem getTimer_clamps (d : D) (r : response) (v : Z) :
  In (Get (mread cfg "1110" "2") (Resolved r)) (evs (getTimer serve cfg d)) ->
  data r !! "1110" = Some (VNumber (Int v)) ->
  (exists t,
     res (getTimer serve cfg d) = Return (VNumber (Int t))
     /\ 0 <= t <= 100
     /\ (v < 0 -> t = 0)
     /\ (0 <= v <= 100 -> t = v)
     /\ (100 < v -> t = 100))
  /\ map (fun z => timerValue (VNumber (Int z))) [-50; 0; 50; 100; 150]
     = map (fun z => VNumber (Int z)) [0; 0; 50; 100; 100].
Proof.
  intros Hin Hv. split; [| reflexivity].
  destruct (getTimer_run serve cfg d) as (es & o & d' & Hatt & Hrun).
  rewrite Hrun in Hin |- *.
  assert (o = Resolved r) as ->.
  { last_resolved Hin o. }
  rewrite (property_data _ _ _ Hv). simpl. rewrite timerValue_int.
  eexists. split; [reflexivity |].
  destruct (Z.ltb_spec v 0); [lia |].
  destruct (Z.ltb_spec 100 v); lia.
Qed.

(** C5. When the three attempts of a handler's request are all rejected,
    [getTimer] catches the error, logs it and returns 0, whereas
    [setActive], [getActive], [setRotationSpeed], [setRefresh] with a true
    value and [getRotationSpeed] all throw the error of the last attempt to
    their caller. *)
Theorem exhausted_retries (d : D) (e : error) :
  (exhausted serve (mread cfg "1110" "2") d = Some e ->
   res (getTimer serve cfg d) = Return (VNumber (Int 0))
   /\ last (evs (getTimer serve cfg d)) = Some (Log (TimerError (message e))))
  /\ (forall v,
        exhausted serve (mwrite cfg "1130" (if ToBoolean v then "1" else "0")) d
        = Some e ->
        res (setActive serve cfg v d) = Throw e)
  /\ (exhausted serve (mread cfg "1130" "1") d = Some e ->
      res (getActive serve cfg d) = Throw e)
  /\ (forall v,
        exhausted serve (mwrite cfg "1130" (pretty (speed v))) d = Some e ->
        res (setRotationSpeed serve cfg v d) = Throw e)
  /\ (exhausted serve (mwrite cfg "1161" "4") d = Some e ->
      res (setRefresh serve cfg (VBool true) d) = Throw e)
  /\ (exhausted serve (mread cfg "1130" "1") d = Some e ->
      res (getRotationSpeed serve cfg d) = Throw e).
Proof.
  split; [| split; [| split; [| split; [| split]]]].
  - intros Hex.
    destruct (getTimer_run serve cfg d) as (es & o & d' & Hatt & ->).
    destruct (attempts_exhausted_last serve _ _ _ _ _ _ Hatt Hex) as [-> _].
    split; [reflexivity | apply last_cons_app].
  - intros v Hex.
    destruct (setActive_run serve cfg v d) as (es & o & d' & Hatt & ->).
    destruct (attempts_exhausted_last serve _ _ _ _ _ _ Hatt Hex) as [-> _].
    reflexivity.
  - intros Hex.
    destruct (getActive_run serve cfg d) as (es & o & d' & Hatt & ->).
    destruct (attempts_exhausted_last serve _ _ _ _ _ _ Hatt Hex) as [-> _].
    reflexivity.
  - intros v Hex.
    destruct (setRotationSpeed_run serve cfg v d) as (es & o & d' & Hatt & ->).
    destruct (attempts_exhausted_last serve _ _ _ _ _ _ Hatt Hex) as [-> _].
    reflexivity.
  - intros Hex.
    destruct (setRefresh_run serve cfg (VBool true) d eq_refl)
      as (es & o & d' & Hatt & ->).
    destruct (attempts_exhausted_last serve _ _ _ _ _ _ Hatt Hex) as [-> _].
    reflexivity.
  - intros Hex.
    destruct (getRotationSpeed_run serve cfg d) as (es & o & d' & Hatt & ->).
    destruct (attempts_exhausted_last serve _ _ _ _ _ _ Hatt Hex) as [-> _].
    reflexivity.
Qed.

(** C6. [setRefresh false] sends no request and has no effect at all.
    [setRefresh true] sends only GETs of the write of register 1161 with
    value 4: one when the device answers it at once, and never more than the
    three attempts of one retried write.  When it returns, exactly one of
    these requests was resolved, and exactly one timer was armed after it:
    the reset of the switch to [false], due in 1000 ms.  Arming the timer is
    the last thing the handler does; the handler does not wait for it (its
    only delays are those between two attempts).  When the write fails, no
    timer is armed. *)
Theorem setRefresh_momentary (d : D) :
  setRefresh serve cfg (VBool false) d = Run (Return tt) d []
  /\ let r := setRefresh serve cfg (VBool true) d in
     (exists n, (1 <= n <= 3)%nat
        /\ requests (evs r) = replicate n (mwrite cfg "1161" "4")
        /\ sleeps (evs r) = replicate (n - 1) 1000)
     /\ (forall resp d',
           serve d (mwrite cfg "1161" "4") = (Resolved resp, d') ->
           res r = Return tt /\ requests (evs r) = [mwrite cfg "1161" "4"])
     /\ (res r = Return tt ->
         length (successes (evs r)) = 1%nat
         /\ timeouts (evs r) = [(RefreshOnUpdateValue (VBool false), 1000)]
         /\ last (evs r)
            = Some (SetTimeout (RefreshOnUpdateValue (VBool false)) 1000))
     /\ (forall e, res r = Throw e ->
           successes (evs r) = [] /\ timeouts (evs r) = []).
Proof.
  split; [reflexivity |].
  intros r. subst r.
  destruct (setRefresh_run serve cfg (VBool true) d eq_refl)
    as (es & o & d' & Hatt & Hrun).
  pose proof (attempts_length _ _ _ _ _ _ _ Hatt) as Hlen.
  split; [| split; [| split]].
  - exists (S (length es)). rewrite Hrun.
    split; [lia |]. rewrite Nat.sub_succ, Nat.sub_0_r.
    destruct o; simpl.
    + rewrite requests_app, sleeps_app, retry_events_requests, retry_events_sleeps.
      simpl. now rewrite !app_nil_r.
    + now rewrite retry_events_requests, retry_events_sleeps.
  - intros resp d1 Hserve. rewrite Hrun.
    apply attempts_three in Hatt
      as [(r0 & -> & -> & H1)
         | [(e1 & dd & r0 & -> & -> & H1 & _)
           | (e1 & dd & e2 & d2 & -> & H1 & _)]];
      rewrite Hserve in H1; try discriminate H1.
    split; reflexivity.
  - rewrite Hrun. destruct o as [resp | e]; simpl; [| discriminate].
    intros _. rewrite successes_app, timeouts_app.
    rewrite retry_events_successes, retry_events_timeouts. simpl.
    repeat split.
    rewrite app_comm_cons.
    change [Log RefreshStarted; SetTimeout (RefreshOnUpdateValue (VBool false)) 1000]
      with ([Log RefreshStarted]
            ++ [SetTimeout (RefreshOnUpdateValue (VBool false)) 1000]).
    rewrite app_assoc. apply last_snoc.
  - intros e. rewrite Hrun. destruct o as [resp | e']; simpl; [discriminate |].
    intros _. now rewrite retry_events_successes, retry_events_timeouts.
Qed.

(** C8. For every percent [p] between 0 and 100: [setRotationSpeed p]
    writes the level [speed p] to register 1130, and when the device answers
    the read of that register with this very level, [getRotationSpeed]
    returns one of 0, 25, 45 and 70.  Writing the percent read back sends
    the same requests as writing [p], that is the same level again, and
    [p = 70] is read back as 70.  Each of the four percents is read back as
    itself. *)
Theorem rotation_speed_round_trip (p : Z) (d d1 d2 : D) (r : response) :
  0 <= p <= 100 ->
  In (Get (mread cfg "1130" "1") (Resolved r)) (evs (getRotationSpeed serve cfg d1)) ->
  data r !! "1130" = Some (VNumber (Int (speed (VNumber (Int p))))) ->
  (exists n, (1 <= n <= 3)%nat
     /\ requests (evs (setRotationSpeed serve cfg (VNumber (Int p)) d))
        = replicate n (mwrite cfg "1130" (pretty (speed (VNumber (Int p))))))
  /\ exists q,
       res (getRotationSpeed serve cfg d1) = Return q
       /\ (q = 0 \/ q = 25 \/ q = 45 \/ q = 70)
       /\ speed (VNumber (Int q)) = speed (VNumber (Int p))
       /\ requests (evs (setRotationSpeed serve cfg (VNumber (Int q)) d2))
          = requests (evs (setRotationSpeed serve cfg (VNumber (Int p)) d2))
       /\ (p = 70 -> q = 70)
       /\ map (fun p' => percentage (VNumber (Int (speed (VNumber (Int p'))))))
              [0; 25; 45; 70]
          = [0; 25; 45; 70].
Proof.
  intros Hp Hin Hv. split.
  - destruct (setRotationSpeed_run serve cfg (VNumber (Int p)) d)
      as (es & o & d' & Hatt & Hrun).
    pose proof (attempts_length _ _ _ _ _ _ _ Hatt) as Hlen.
    exists (S (length es)). split; [lia |].
    rewrite Hrun. destruct o; simpl.
    + rewrite requests_app, retry_events_requests. simpl. now rewrite app_nil_r.
    + now rewrite retry_events_requests.
  - destruct (getRotationSpeed_run serve cfg d1) as (es & o & d' & Hatt & Hrun).
    rewrite Hrun in Hin |- *.
    assert (o = Resolved r) as ->.
    { last_resolved Hin o. }
    rewrite (property_data _ _ _ Hv). simpl.
    eexists. split; [reflexivity |].
    assert (speed (VNumber (Int (percentage (VNumber (Int (speed (VNumber (Int p))))))))
            = speed (VNumber (Int p))) as Hsame.
    { rewrite !speed_int.
      destruct (Z.eqb_spec p 0); [reflexivity |].
      destruct (Z.leb_spec p 34); [reflexivity |].
      destruct (Z.leb_spec p 57); reflexivity. }
    split; [| split; [exact Hsame | split; [| split; [| reflexivity]]]].
    + rewrite speed_int.
      destruct (p =? 0); [now left |].
      destruct (p <=? 34); [right; now left |].
      destruct (p <=? 57); [right; right; now left | right; right; now right].
    + unfold setRotationSpeed, bind, log, emit. simpl.
      rewrite Hsame. reflexivity.
    + intros ->. reflexivity.
Qed.

(** C9. [setActive] writes register 1130 with value 1 for a true (on)
    value and with value 0 for a false (off) value.  1 is none of the levels
    2, 3 and 4 that [getRotationSpeed] maps to a percent: when the device
    answers the read of register 1130 with the 1 written by [setActive],
    [getRotationSpeed] returns 0. *)
Theorem setActive_then_getRotationSpeed (v : value) (d d1 : D) (r : response) :
  In (Get (mread cfg "1130" "1") (Resolved r)) (evs (getRotationSpeed serve cfg d1)) ->
  data r !! "1130" = Some (VNumber (Int 1)) ->
  (exists n, (1 <= n <= 3)%nat
     /\ (ToBoolean v = true ->
         requests (evs (setActive serve cfg v d)) = replicate n (mwrite cfg "1130" "1"))
     /\ (ToBoolean v = false ->
         requests (evs (setActive serve cfg v d)) = replicate n (mwrite cfg "1130" "0")))
  /\ ToBoolean (VBool true) = true
  /\ ToBoolean (VBool false) = false
  /\ res (getRotationSpeed serve cfg d1) = Return 0.
Proof.
  intros Hin Hv. split; [| split; [reflexivity | split; [reflexivity |]]].
  - destruct (setActive_run serve cfg v d) as (es & o & d' & Hatt & Hrun).
    pose proof (attempts_length _ _ _ _ _ _ _ Hatt) as Hlen.
    exists (S (length es)). split; [lia |].
    assert (requests (evs (setActive serve cfg v d))
            = replicate (S (length es))
                (mwrite cfg "1130" (if ToBoolean v then "1" else "0"))) as Hreq.
    { rewrite Hrun. destruct o; simpl.
      - rewrite requests_app, retry_events_requests. simpl. now rewrite app_nil_r.
      - now rewrite retry_events_requests. }
    rewrite Hreq. split; intros ->; reflexivity.
  - destruct (getRotationSpeed_run serve cfg d1) as (es & o & d' & Hatt & Hrun).
    rewrite Hrun in Hin |- *.
    assert (o = Resolved r) as ->.
    { last_resolved Hin o. }
    rewrite (property_data _ _ _ Hv). reflexivity.
Qed.

(** C10, as the code has it.  When the body of the response to
    [getTimer]'s read has properties and does not map "1110" to a number,
    the comparisons of the clamping convert the value read.  For a missing
    key, [null], a boolean, a string that is blank or not a numeric literal,
    and a string that spells an integer between 0 and 100, both comparisons
    are false and [getTimer] returns the value as it is, which is not a
    number in the range 0..100.  A string that spells an integer outside
    that range is clamped like the integer: the handler returns the number
    0 or the number 100.  A body that is [null] or [undefined] makes the
    read throw, which the handler catches to return 0.  An integer value
    always ends up in the range. *)
Theorem getTimer_non_number (d : D) (r : response) :
  In (Get (mread cfg "1110" "2") (Resolved r)) (evs (getTimer serve cfg d)) ->
  (forall m w,
     data r = Properties m ->
     default VUndefined (m !! "1110") = w ->
     unclamped w ->
     lt w 0 = false
     /\ gt w 100 = false
     /\ res (getTimer serve cfg d) = Return w
     /\ ~ in_range w)
  /\ (forall m, data r = Properties m -> m !! "1110" = None ->
        res (getTimer serve cfg d) = Return VUndefined)
  /\ (forall s z,
        data r !! "1110" = Some (VString s) ->
        StringToNumber s = Int z ->
        (z < 0 ->
         lt (VString s) 0 = true
         /\ res (getTimer serve cfg d) = Return (VNumber (Int 0)))
        /\ (100 < z ->
            gt (VString s) 100 = true
            /\ res (getTimer serve cfg d) = Return (VNumber (Int 100))))
  /\ (data r = NullBody \/ data r = UndefinedBody ->
      res (getTimer serve cfg d) = Return (VNumber (Int 0)))
  /\ (forall z, data r !! "1110" = Some (VNumber (Int z)) ->
        exists t, res (getTimer serve cfg d) = Return (VNumber (Int t))
                  /\ 0 <= t <= 100).
Proof.
  intros Hin.
  destruct (getTimer_run serve cfg d) as (es & o & d' & Hatt & Hrun).
  rewrite Hrun in Hin |- *.
  assert (o = Resolved r) as ->.
  { last_resolved Hin o. }
  clear Hin Hrun.
  assert (forall m w, data r = Properties m -> default VUndefined (m !! "1110") = w ->
                      property r "1110" = Return w) as Hprop.
  { intros m w Hm <-. unfold property. now rewrite Hm. }
  split; [| split; [| split; [| split]]].
  - intros m w Hm Hw Hun.
    destruct (unclamped_comparisons w Hun) as [Hlt Hgt].
    rewrite (Hprop m w Hm Hw), (unclamped_timerValue w Hun).
    auto using unclamped_out_of_range.
  - intros m Hm Hnone.
    rewrite (Hprop m VUndefined Hm); [reflexivity |]. now rewrite Hnone.
  - intros s z Hs Hz. rewrite (property_data _ _ _ Hs).
    unfold timerValue, lt, gt. simpl. rewrite Hz. simpl. split.
    + intros Hneg. apply Z.ltb_lt in Hneg. rewrite Hneg. auto.
    + intros Hbig. destruct (Z.ltb_spec z 0); [lia |].
      apply Z.ltb_lt in Hbig. rewrite Hbig. auto.
  - unfold property. intros [-> | ->]; reflexivity.
  - intros z Hz. rewrite (property_data _ _ _ Hz), timerValue_int.
    eexists. split; [reflexivity |].
    destruct (Z.ltb_spec z 0); [lia |].
    destruct (Z.ltb_spec 100 z); lia.
Qed.

(** A string that spells a number is converted by the comparisons, so that
    it is clamped when the number is out of range and returned as the string
    it is otherwise. *)
Remark timerValue_numeric_string :
  timerValue (VString "150") = VNumber (Int 100)
  /\ timerValue (VString "-5") = VNumber (Int 0)
  /\ timerValue (VString "50") = VString "50".
Proof. repeat split. Qed.

End Properties.

(** * Concrete runs

    Each property is run once on the device [scripted] and the accessory
    [home]. *)

Lemma retryRequest_three_attempts_witness :
  (res (retryRequest scripted "u" 3
          [Rejected (Error "ECONNRESET"); Rejected (Error "ETIMEDOUT");
           Resolved (reading "1130" (VNumber (Int 2)))])
   = Return (Some (reading "1130" (VNumber (Int 2))))
   /\ sleeps (evs (retryRequest scripted "u" 3
                     [Rejected (Error "ECONNRESET"); Rejected (Error "ETIMEDOUT");
                      Resolved (reading "1130" (VNumber (Int 2)))]))
      = [1000; 1000])
  /\ res (retryRequest scripted "u" 3
            [Rejected (Error "ECONNRESET"); Rejected (Error "ETIMEDOUT");
             Rejected (Error "EHOSTUNREACH")])
     = Throw (Error "EHOSTUNREACH").
Proof.
  split.
  - pose proof (retryRequest_three_attempts scripted "u"
                  [Rejected (Error "ECONNRESET"); Rejected (Error "ETIMEDOUT");
                   Resolved (reading "1130" (VNumber (Int 2)))]) as H.
    cbv zeta in H. destruct H as (_ & _ & H & _).
    destruct (H _ _ _ _ _ _ eq_refl eq_refl eq_refl) as (Hres & Hsleeps & _).
    split; [exact Hres | exact Hsleeps].
  - pose proof (retryRequest_three_attempts scripted "u"
                  [Rejected (Error "ECONNRESET"); Rejected (Error "ETIMEDOUT");
                   Rejected (Error "EHOSTUNREACH")]) as H.
    cbv zeta in H. destruct H as (_ & _ & _ & H).
    destruct (H _ _ _ _ _ _ eq_refl eq_refl eq_refl) as (Hres & _).
    exact Hres.
Defined.

Lemma setRotationSpeed_writes_level_witness :
  0 <= 34 <= 100
  /\ exists n, (1 <= n <= 3)%nat
       /\ requests (evs (setRotationSpeed scripted home (VNumber (Int 34))
                           [Rejected (Error "ECONNRESET"); Resolved (Response ∅)]))
          = replicate n (mwrite home "1130" "2").
Proof.
  assert (0 <= 34 <= 100) as Hp by lia.
  split; [exact Hp |].
  destruct (setRotationSpeed_writes_level scripted home 34
              [Rejected (Error "ECONNRESET"); Resolved (Response ∅)] Hp)
    as (n & Hn & _ & H & _).
  exists n. split; [exact Hn | apply H; lia].
Defined.

Lemma getRotationSpeed_maps_level_witness :
  In (Get (mread home "1130" "1") (Resolved (reading "1130" (VNumber (Int 3)))))
     (evs (getRotationSpeed scripted home
             [Resolved (reading "1130" (VNumber (Int 3)))]))
  /\ data (reading "1130" (VNumber (Int 3))) !! "1130" = Some (VNumber (Int 3))
  /\ res (getRotationSpeed scripted home [Resolved (reading "1130" (VNumber (Int 3)))])
     = Return 45.
Proof.
  assert (In (Get (mread home "1130" "1") (Resolved (reading "1130" (VNumber (Int 3)))))
             (evs (getRotationSpeed scripted home
                     [Resolved (reading "1130" (VNumber (Int 3)))]))) as Hin.
  { right. left. reflexivity. }
  assert (data (reading "1130" (VNumber (Int 3))) !! "1130" = Some (VNumber (Int 3)))
    as Hv by reflexivity.
  split; [exact Hin | split; [exact Hv |]].
  destruct (getRotationSpeed_maps_level scripted home _ _ 3 Hin Hv)
    as (q & Hres & _ & H3 & _).
  rewrite Hres, (H3 eq_refl). reflexivity.
Defined.

Lemma getActive_iff_positive_witness :
  In (Get (mread home "1130" "1") (Resolved (reading "1130" (VNumber (Int 2)))))
     (evs (getActive scripted home [Resolved (reading "1130" (VNumber (Int 2)))]))
  /\ data (reading "1130" (VNumber (Int 2))) !! "1130" = Some (VNumber (Int 2))
  /\ res (getActive scripted home [Resolved (reading "1130" (VNumber (Int 2)))])
     = Return 1.
Proof.
  assert (In (Get (mread home "1130" "1") (Resolved (reading "1130" (VNumber (Int 2)))))
             (evs (getActive scripted home
                     [Resolved (reading "1130" (VNumber (Int 2)))]))) as Hin.
  { right. left. reflexivity. }
  assert (data (reading "1130" (VNumber (Int 2))) !! "1130" = Some (VNumber (Int 2)))
    as Hv by reflexivity.
  split; [exact Hin | split; [exact Hv |]].
  destruct (getActive_iff_positive scripted home _ _ 2 Hin Hv)
    as (_ & a & Hres & Ha & _).
  rewrite Hres. f_equal. apply Ha. lia.
Defined.

Lemma getTimer_clamps_witness :
  In (Get (mread home "1110" "2") (Resolved (reading "1110" (VNumber (Int 150)))))
     (evs (getTimer scripted home [Resolved (reading "1110" (VNumber (Int 150)))]))
  /\ data (reading "1110" (VNumber (Int 150))) !! "1110" = Some (VNumber (Int 150))
  /\ res (getTimer scripted home [Resolved (reading "1110" (VNumber (Int 150)))])
     = Return (VNumber (Int 100)).
Proof.
  assert (In (Get (mread home "1110" "2")
                (Resolved (reading "1110" (VNumber (Int 150)))))
             (evs (getTimer scripted home
                     [Resolved (reading "1110" (VNumber (Int 150)))]))) as Hin.
  { right. left. reflexivity. }
  assert (data (reading "1110" (VNumber (Int 150))) !! "1110"
          = Some (VNumber (Int 150))) as Hv by reflexivity.
  split; [exact Hin | split; [exact Hv |]].
  destruct (getTimer_clamps scripted home _ _ 150 Hin Hv)
    as ((t & Hres & _ & _ & _ & Ht) & _).
  rewrite Hres, Ht; [reflexivity | lia].
Defined.

Lemma exhausted_retries_witness :
  exhausted scripted (mread home "1110" "2") [] = Some (Error "timeout of 20000ms exceeded")
  /\ res (getTimer scripted home []) = Return (VNumber (Int 0))
  /\ res (setActive scripted home (VBool true) [])
     = Throw (Error "timeout of 20000ms exceeded")
  /\ res (getActive scripted home []) = Throw (Error "timeout of 20000ms exceeded")
  /\ res (setRotationSpeed scripted home (VNumber (Int 50)) [])
     = Throw (Error "timeout of 20000ms exceeded")
  /\ res (setRefresh scripted home (VBool true) [])
     = Throw (Error "timeout of 20000ms exceeded")
  /\ res (getRotationSpeed scripted home [])
     = Throw (Error "timeout of 20000ms exceeded").
Proof.
  destruct (exhausted_retries scripted home [] (Error "timeout of 20000ms exceeded"))
    as (Htimer & Hset & Hget & Hsetspeed & Hrefresh & Hgetspeed).
  split; [reflexivity |].
  split; [apply Htimer; reflexivity |].
  split; [apply Hset; reflexivity |].
  split; [apply Hget; reflexivity |].
  split; [apply Hsetspeed; reflexivity |].
  split; [apply Hrefresh; reflexivity |].
  apply Hgetspeed; reflexivity.
Defined.

Lemma setRefresh_momentary_witness :
  res (setRefresh scripted home (VBool true) [Resolved (Response ∅)]) = Return tt
  /\ requests (evs (setRefresh scripted home (VBool true) [Resolved (Response ∅)]))
     = [mwrite home "1161" "4"]
  /\ timeouts (evs (setRefresh scripted home (VBool true) [Resolved (Response ∅)]))
     = [(RefreshOnUpdateValue (VBool false), 1000)].
Proof.
  pose proof (setRefresh_momentary scripted home [Resolved (Response ∅)]) as H.
  cbv zeta in H. destruct H as (_ & _ & Hfirst & Hdone & _).
  destruct (Hfirst (Response ∅) [] eq_refl) as (Hres & Hreq).
  destruct (Hdone Hres) as (_ & Htimeouts & _).
  split; [exact Hres | split; [exact Hreq | exact Htimeouts]].
Defined.

Lemma rotation_speed_round_trip_witness :
  0 <= 70 <= 100
  /\ In (Get (mread home "1130" "1") (Resolved (reading "1130" (VNumber (Int 4)))))
        (evs (getRotationSpeed scripted home
                [Resolved (reading "1130" (VNumber (Int 4)))]))
  /\ data (reading "1130" (VNumber (Int 4))) !! "1130"
     = Some (VNumber (Int (speed (VNumber (Int 70)))))
  /\ res (getRotationSpeed scripted home [Resolved (reading "1130" (VNumber (Int 4)))])
     = Return 70.
Proof.
  assert (0 <= 70 <= 100) as Hp by lia.
  assert (In (Get (mread home "1130" "1") (Resolved (reading "1130" (VNumber (Int 4)))))
             (evs (getRotationSpeed scripted home
                     [Resolved (reading "1130" (VNumber (Int 4)))]))) as Hin.
  { right. left. reflexivity. }
  assert (data (reading "1130" (VNumber (Int 4))) !! "1130"
          = Some (VNumber (Int (speed (VNumber (Int 70)))))) as Hv by reflexivity.
  split; [exact Hp | split; [exact Hin | split; [exact Hv |]]].
  destruct (rotation_speed_round_trip scripted home 70
              [Resolved (Response ∅)] _ [Resolved (Response ∅)] _ Hp Hin Hv)
    as (_ & q & Hres & _ & _ & _ & H70 & _).
  rewrite Hres, (H70 eq_refl). reflexivity.
Defined.

Lemma setActive_then_getRotationSpeed_witness :
  In (Get (mread home "1130" "1") (Resolved (reading "1130" (VNumber (Int 1)))))
     (evs (getRotationSpeed scripted home
             [Resolved (reading "1130" (VNumber (Int 1)))]))
  /\ data (reading "1130" (VNumber (Int 1))) !! "1130" = Some (VNumber (Int 1))
  /\ (exists n, (1 <= n <= 3)%nat
        /\ requests (evs (setActive scripted home (VBool true) [Resolved (Response ∅)]))
           = replicate n (mwrite home "1130" "1"))
  /\ res (getRotationSpeed scripted home [Resolved (reading "1130" (VNumber (Int 1)))])
     = Return 0.
Proof.
  assert (In (Get (mread home "1130" "1") (Resolved (reading "1130" (VNumber (Int 1)))))
             (evs (getRotationSpeed scripted home
                     [Resolved (reading "1130" (VNumber (Int 1)))]))) as Hin.
  { right. left. reflexivity. }
  assert (data (reading "1130" (VNumber (Int 1))) !! "1130" = Some (VNumber (Int 1)))
    as Hv by reflexivity.
  split; [exact Hin | split; [exact Hv |]].
  destruct (setActive_then_getRotationSpeed scripted home (VBool true)
              [Resolved (Response ∅)] _ _ Hin Hv)
    as ((n & Hn & Hon & _) & _ & _ & Hres).
  split; [| exact Hres].
  exists n. split; [exact Hn | apply Hon; reflexivity].
Defined.

(** C10 as it was stated fails on a string that spells a number: the
    response maps "1110" to the string "150", which is not a number, yet the
    second comparison of the clamping is true and [getTimer] returns the
    number 100, not the string. *)
Lemma getTimer_non_number_counterexample :
  In (Get (mread home "1110" "2") (Resolved (reading "1110" (VString "150"))))
     (evs (getTimer scripted home [Resolved (reading "1110" (VString "150"))]))
  /\ data (reading "1110" (VString "150")) !! "1110" = Some (VString "150")
  /\ (forall n, VString "150" <> VNumber n)
  /\ ~ (lt (VString "150") 0 = false /\ gt (VString "150") 100 = false)
  /\ res (getTimer scripted home [Resolved (reading "1110" (VString "150"))])
     <> Return (VString "150")
  /\ res (getTimer scripted home [Resolved (reading "1110" (VString "150"))])
     = Return (VNumber (Int 100))
  /\ in_range (VNumber (Int 100)).
Proof.
  split; [right; left; reflexivity |].
  split; [reflexivity |].
  split; [discriminate |].
  split; [intros [_ H]; discriminate H |].
  split; [discriminate |].
  split; [reflexivity |].
  exists 100. split; [reflexivity | lia].
Qed.

Lemma getTimer_non_number_witness :
  (In (Get (mread home "1110" "2") (Resolved (reading "1110" (VString "n/a"))))
      (evs (getTimer scripted home [Resolved (reading "1110" (VString "n/a"))]))
   /\ unclamped (VString "n/a")
   /\ res (getTimer scripted home [Resolved (reading "1110" (VString "n/a"))])
      = Return (VString "n/a"))
  /\ (In (Get (mread home "1110" "2") (Resolved (Response ∅)))
         (evs (getTimer scripted home [Resolved (Response ∅)]))
      /\ res (getTimer scripted home [Resolved (Response ∅)]) = Return VUndefined)
  /\ (In (Get (mread home "1110" "2") (Resolved (Response NullBody)))
         (evs (getTimer scripted home [Resolved (Response NullBody)]))
      /\ res (getTimer scripted home [Resolved (Response NullBody)])
         = Return (VNumber (Int 0)))
  /\ (StringToNumber "-5" = Int (-5)
      /\ -5 < 0
      /\ res (getTimer scripted home [Resolved (reading "1110" (VString "-5"))])
         = Return (VNumber (Int 0))).
Proof.
  split; [| split; [| split]].
  - assert (In (Get (mread home "1110" "2")
                  (Resolved (reading "1110" (VString "n/a"))))
               (evs (getTimer scripted home
                       [Resolved (reading "1110" (VString "n/a"))]))) as Hin.
    { right. left. reflexivity. }
    assert (unclamped (VString "n/a")) as Hun.
    { apply unclamped_text. reflexivity. }
    split; [exact Hin | split; [exact Hun |]].
    destruct (getTimer_non_number scripted home _ _ Hin) as (H & _).
    destruct (H _ (VString "n/a") eq_refl eq_refl Hun) as (_ & _ & Hres & _).
    exact Hres.
  - assert (In (Get (mread home "1110" "2") (Resolved (Response ∅)))
               (evs (getTimer scripted home [Resolved (Response ∅)]))) as Hin.
    { right. left. reflexivity. }
    split; [exact Hin |].
    destruct (getTimer_non_number scripted home _ _ Hin) as (_ & H & _).
    exact (H ∅ eq_refl eq_refl).
  - assert (In (Get (mread home "1110" "2") (Resolved (Response NullBody)))
               (evs (getTimer scripted home [Resolved (Response NullBody)]))) as Hin.
    { right. left. reflexivity. }
    split; [exact Hin |].
    destruct (getTimer_non_number scripted home _ _ Hin) as (_ & _ & _ & H & _).
    exact (H (or_introl eq_refl)).
  - assert (In (Get (mread home "1110" "2") (Resolved (reading "1110" (VString "-5"))))
               (evs (getTimer scripted home
                       [Resolved (reading "1110" (VString "-5"))]))) as Hin.
    { right. left. reflexivity. }
    assert (StringToNumber "-5" = Int (-5)) as Hz by reflexivity.
    assert (-5 < 0) as Hneg by lia.
    split; [exact Hz | split; [exact Hneg |]].
    destruct (getTimer_non_number scripted home _ _ Hin) as (_ & _ & H & _).
    destruct (H "-5" (-5) eq_refl Hz) as (Hlow & _).
    exact (proj2 (Hlow Hneg)).
Defined.

(** * Further properties of the retry loop *)

Lemma retry_numbers_app (a b : list event) :
  retry_numbers (a ++ b) = retry_numbers a ++ retry_numbers b.
Proof. apply omap_app. Qed.

Section RetryEventsMore.

Variables (url : string) (retries : nat).

Lemma retry_events_failures i es o :
  failures (retry_events url retries i es o)
  = es ++ match o with Rejected e => [e] | Resolved _ => [] end.
Proof.
  revert i. induction es as [|e es IH]; intros i; simpl.
  - destruct o; reflexivity.
  - f_equal. apply IH.
Qed.


Lemma retry_events_last i es o :
  last (retry_events url retries i es o)
  = Some match o with
         | Resolved _ => Get url o
         | Rejected e => Log (RetryFailed (message e))
         end.
Proof.
  revert i. induction es as [|e es IH]; intros i.
  - destruct o; reflexivity.
  - specialize (IH (i + 1)%nat).
    change (retry_events url retries i (e :: es) o)
      with ([Get url (Rejected e); Log (Retrying (i + 1) retries (message e));
             Sleep 1000] ++ retry_events url retries (i + 1) es o).
    rewrite last_app, IH. reflexivity.
Qed.

(** The only log entries of the loop are its own two. *)
Lemma retry_events_log i es o l :
  In (Log l) (retry_events url retries i es o) ->
  (exists msg, l = RetryFailed msg) \/ (exists a n msg, l = Retrying a n msg).
Proof.
  revert i. induction es as [|e es IH]; intros i; simpl.
  - destruct o; simpl; intros [H | H]; try discriminate; try tauto.
    destruct H as [[= <-] | []]. left. eauto.
  - intros [H | [[= <-] | [H | H]]]; try discriminate; eauto 6.
Qed.

End RetryEventsMore.

Section RetryMore.

Context {D : Type} (serve : D -> string -> outcome * D).


(** X2. What [retryRequest] hands back, for any positive number of
    retries.  When it returns, it returns the response of the one resolved
    request, which is the last event of the run, every request before it
    having been rejected.  When it throws, no request was resolved, all
    [retries] requests were made and rejected, the error thrown is that of
    the last one, and the last event is the log entry of the failure. *)
Theorem retryRequest_result (url : string) (retries : nat) (d : D) :
  (0 < retries)%nat ->
  let r := retryRequest serve url retries d in
  (forall x, res r = Return x ->
     exists resp,
       x = Some resp
       /\ successes (evs r) = [resp]
       /\ last (evs r) = Some (Get url (Resolved resp))
       /\ S (length (failures (evs r))) = length (requests (evs r)))
  /\ (forall e, res r = Throw e ->
        successes (evs r) = []
        /\ length (requests (evs r)) = retries
        /\ length (failures (evs r)) = retries
        /\ last (failures (evs r)) = Some e
        /\ last (evs r) = Some (Log (RetryFailed (message e)))).
Proof.
  intros Hpos r. subst r.
  destruct (retryRequest_run serve url retries d Hpos)
    as (es & o & d' & Hatt & ->).
  simpl. rewrite retry_events_successes, retry_events_failures,
    retry_events_requests, retry_events_last, length_replicate.
  destruct o as [resp | e']; simpl; split.
  - intros x [= <-]. exists resp. rewrite app_nil_r. auto.
  - intros e. discriminate.
  - intros x. discriminate.
  - intros e [= <-].
    pose proof (attempts_rejected_last _ _ _ _ _ _ _ Hatt) as Hn.
    rewrite length_app, last_snoc. simpl.
    repeat split; auto; lia.
Qed.

End RetryMore.

(** * Further properties of the handlers *)

(** ** The mappings on arbitrary values *)

Lemma timerValue_bounded (v : value) (z : Z) :
  timerValue v = VNumber (Int z) -> 0 <= z <= 100.
Proof.
  unfold timerValue.
  destruct (lt v 0) eqn:Hlt; [intros [= <-]; lia |].
  destruct (gt v 100) eqn:Hgt; [intros [= <-]; lia |].
  intros ->. unfold lt, gt in *. simpl in *. lia.
Qed.



Lemma percentage_positive_active (v : value) :
  percentage v <> 0 -> isActive v = true.
Proof.
  intros H. destruct v as [| | b | [|z] | s]; try (now contradict H).
  rewrite percentage_int in H. rewrite isActive_int.
  destruct (Z.eqb_spec z 2); [apply Z.ltb_lt; lia |].
  destruct (Z.eqb_spec z 3); [apply Z.ltb_lt; lia |].
  destruct (Z.eqb_spec z 4); [apply Z.ltb_lt; lia | now contradict H].
Qed.

Lemma speed_cases (v : value) :
  speed v = 0 \/ speed v = 2 \/ speed v = 3 \/ speed v = 4.
Proof.
  unfold speed.
  destruct (strict_eq v 0); [auto |].
  destruct (le v 34); [auto |].
  destruct (le v 57); auto.
Qed.

Lemma speed_zero (v : value) : speed v = 0 <-> v = VNumber (Int 0).
Proof.
  split; [| intros ->; reflexivity].
  unfold speed. destruct (strict_eq v 0) eqn:Heq.
  - intros _. destruct v as [| | b | [|z] | s]; try discriminate.
    simpl in Heq. apply Z.eqb_eq in Heq. now subst.
  - destruct (le v 34); [discriminate |]. destruct (le v 57); discriminate.
Qed.

(** ** Strings *)

Lemma append_inv_head (s a b : string) : s +:+ a = s +:+ b -> a = b.
Proof.
  induction s as [|c s IH]; simpl; [auto |].
  intros [= H]. auto.
Qed.

(** A read URL is never a write URL. *)
Lemma mread_not_mwrite (cfg : config) (register count register' payload : string) :
  mread cfg register count <> mwrite cfg register' payload.
Proof.
  unfold mread, mwrite. intros H.
  apply (append_inv_head "http://") in H.
  apply append_inv_head in H. discriminate H.
Qed.

Section HandlersMore.

Context {D : Type} (serve : D -> string -> outcome * D) (cfg : config).

(** X3. [getTimer] never throws and never hands the host a number outside
    0..100, whatever the device does and whatever the body of its response
    holds: its result is a value, and when that value is an integer it lies
    between 0 and 100. *)
Theorem getTimer_never_out_of_range (d : D) :
  exists v,
    res (getTimer serve cfg d) = Return v
    /\ forall z, v = VNumber (Int z) -> 0 <= z <= 100.
Proof.
  destruct (getTimer_run serve cfg d) as (es & o & d' & _ & ->).
  destruct o as [r | e]; [destruct (property r "1110") as [v | e] |];
    simpl; eexists; (split; [reflexivity |]).
  - intros z. apply timerValue_bounded.
  - intros z [= <-]. lia.
  - intros z [= <-]. lia.
Qed.


(** X5. [getActive] compares the number the value read converts to with
    0.  When the body has properties: a missing key, [null], [false], [NaN]
    and a string that is blank or not a numeric literal read as inactive
    (0); [true] converts to 1 and reads as active (1); a string that spells
    an integer reads as active exactly when the integer is positive.  When
    the body is [null] or [undefined], the read of the property throws and
    so does the handler. *)
Theorem getActive_non_number (d : D) (r : response) :
  In (Get (mread cfg "1130" "1") (Resolved r)) (evs (getActive serve cfg d)) ->
  (forall m w,
     data r = Properties m ->
     default VUndefined (m !! "1130") = w ->
     (w = VUndefined \/ w = VNull \/ w = VBool false \/ w = VNumber NaN ->
      res (getActive serve cfg d) = Return 0)
     /\ (w = VBool true -> res (getActive serve cfg d) = Return 1)
     /\ (forall s, w = VString s ->
           numeric_literal (trim (list_ascii_of_string s)) = false ->
           res (getActive serve cfg d) = Return 0)
     /\ (forall s z, w = VString s -> StringToNumber s = Int z ->
           (0 < z -> res (getActive serve cfg d) = Return 1)
           /\ (z <= 0 -> res (getActive serve cfg d) = Return 0)))
  /\ (data r = NullBody \/ data r = UndefinedBody ->
      exists e, res (getActive serve cfg d) = Throw e).
Proof.
  intros Hin.
  destruct (getActive_run serve cfg d) as (es & o & d' & Hatt & Hrun).
  rewrite Hrun in Hin |- *.
  assert (o = Resolved r) as ->.
  { last_resolved Hin o. }
  clear Hin Hrun. split.
  - intros m w Hm Hw. unfold property. rewrite Hm, Hw. simpl.
    split; [| split; [| split]].
    + intros [-> | [-> | [-> | ->]]]; reflexivity.
    + intros ->. reflexivity.
    + intros s -> Hlit. unfold isActive, gt. simpl.
      destruct (StringToNumber_not_literal s Hlit) as [-> | ->]; reflexivity.
    + intros s z -> Hz. unfold isActive, gt. simpl. rewrite Hz. simpl.
      split; intros Hsign.
      * apply Z.ltb_lt in Hsign. now rewrite Hsign.
      * apply Z.ltb_ge in Hsign. now rewrite Hsign.
  - unfold property. intros [-> | ->]; simpl; eauto.
Qed.

(** X6. The two readings of register 1130 agree in one direction: on the
    same response, whenever [getRotationSpeed] returns a percent other than
    0, [getActive] returns 1. *)
Theorem rotation_speed_implies_active (d1 d2 : D) (r : response) (q : Z) :
  In (Get (mread cfg "1130" "1") (Resolved r)) (evs (getActive serve cfg d1)) ->
  In (Get (mread cfg "1130" "1") (Resolved r)) (evs (getRotationSpeed serve cfg d2)) ->
  res (getRotationSpeed serve cfg d2) = Return q ->
  q <> 0 ->
  res (getActive serve cfg d1) = Return 1.
Proof.
  intros Hin1 Hin2.
  destruct (getActive_run serve cfg d1) as (es1 & o1 & d1' & _ & Hrun1).
  destruct (getRotationSpeed_run serve cfg d2) as (es2 & o2 & d2' & _ & Hrun2).
  rewrite Hrun1 in Hin1 |- *. rewrite Hrun2 in Hin2 |- *.
  assert (o1 = Resolved r) as ->.
  { last_resolved Hin1 o1. }
  assert (o2 = Resolved r) as ->.
  { last_resolved Hin2 o2. }
  destruct (property r "1130") as [v | e]; simpl; [| discriminate].
  intros [= <-] Hq.
  now rewrite (percentage_positive_active _ Hq).
Qed.

(** X7. [setRotationSpeed] on any value whatsoever writes register 1130
    with one of the levels 0, 2, 3 and 4, never with 1; it writes 0 only for
    the number 0 itself.  Outside the range of a percent, a negative integer
    is written as level 2 and an integer above 100 as level 4; [undefined]
    and [NaN], for which every comparison fails, are written as level 4. *)
Theorem setRotationSpeed_any_value (v : value) (d : D) :
  exists level n,
    (1 <= n <= 3)%nat
    /\ requests (evs (setRotationSpeed serve cfg v d))
       = replicate n (mwrite cfg "1130" (pretty level))
    /\ (level = 0 \/ level = 2 \/ level = 3 \/ level = 4)
    /\ (level = 0 <-> v = VNumber (Int 0))
    /\ (forall p, v = VNumber (Int p) -> p < 0 -> level = 2)
    /\ (forall p, v = VNumber (Int p) -> 100 < p -> level = 4)
    /\ (v = VUndefined \/ v = VNumber NaN -> level = 4).
Proof.
  destruct (setRotationSpeed_run serve cfg v d) as (es & o & d' & Hatt & Hrun).
  pose proof (attempts_length _ _ _ _ _ _ _ Hatt) as Hlen.
  exists (speed v), (S (length es)).
  split; [lia |].
  split; [| split; [apply speed_cases | split; [apply speed_zero | split; [| split]]]].
  - rewrite Hrun. destruct o; simpl.
    + rewrite requests_app, retry_events_requests. simpl. now rewrite app_nil_r.
    + now rewrite retry_events_requests.
  - intros p -> Hp. rewrite speed_int.
    destruct (Z.eqb_spec p 0); [lia |].
    destruct (Z.leb_spec p 34); [reflexivity | lia].
  - intros p -> Hp. rewrite speed_int.
    destruct (Z.eqb_spec p 0); [lia |].
    destruct (Z.leb_spec p 34); [lia |].
    destruct (Z.leb_spec p 57); [lia | reflexivity].
  - intros [-> | ->]; reflexivity.
Qed.

End HandlersMore.

Section Composition.

Context {D : Type} (serve : D -> string -> outcome * D) (cfg : config).

(** X8. A speed written and the power state read back.  [setRotationSpeed]
    on an integer [p] writes the level [speed p] to register 1130; when the
    device answers [getActive]'s read of that register with this level,
    [getActive] returns 1 for every [p] other than 0 and 0 for [p = 0]. *)
Theorem setRotationSpeed_then_getActive (p : Z) (d d1 : D) (r : response) :
  In (Get (mread cfg "1130" "1") (Resolved r)) (evs (getActive serve cfg d1)) ->
  data r !! "1130" = Some (VNumber (Int (speed (VNumber (Int p))))) ->
  (exists n, (1 <= n <= 3)%nat
     /\ requests (evs (setRotationSpeed serve cfg (VNumber (Int p)) d))
        = replicate n (mwrite cfg "1130" (pretty (speed (VNumber (Int p))))))
  /\ (p <> 0 -> res (getActive serve cfg d1) = Return 1)
  /\ (p = 0 -> res (getActive serve cfg d1) = Return 0).
Proof.
  intros Hin Hv. split.
  - destruct (setRotationSpeed_run serve cfg (VNumber (Int p)) d)
      as (es & o & d' & Hatt & Hrun).
    pose proof (attempts_length _ _ _ _ _ _ _ Hatt) as Hlen.
    exists (S (length es)). split; [lia |].
    rewrite Hrun. destruct o; simpl.
    + rewrite requests_app, retry_events_requests. simpl. now rewrite app_nil_r.
    + now rewrite retry_events_requests.
  - destruct (getActive_run serve cfg d1) as (es & o & d' & Hatt & Hrun).
    rewrite Hrun in Hin |- *.
    assert (o = Resolved r) as ->.
    { last_resolved Hin o. }
    rewrite (property_data _ _ _ Hv). simpl. rewrite isActive_int, speed_int.
    split.
    + intros Hp. destruct (Z.eqb_spec p 0); [lia |].
      destruct (p <=? 34); [reflexivity |]. destruct (p <=? 57); reflexivity.
    + intros ->. reflexivity.
Qed.

(** X9. The power state written and read back.  [setActive] writes 1 for
    a true value and 0 for a false one; when the device answers
    [getActive]'s read with the number written, [getActive] returns 1 in the
    first case and 0 in the second. *)
Theorem setActive_then_getActive (v : value) (d d1 : D) (r : response) :
  In (Get (mread cfg "1130" "1") (Resolved r)) (evs (getActive serve cfg d1)) ->
  data r !! "1130" = Some (VNumber (Int (if ToBoolean v then 1 else 0))) ->
  (exists n, (1 <= n <= 3)%nat
     /\ requests (evs (setActive serve cfg v d))
        = replicate n (mwrite cfg "1130" (pretty (if ToBoolean v then 1 else 0))))
  /\ res (getActive serve cfg d1) = Return (if ToBoolean v then 1 else 0).
Proof.
  intros Hin Hv. split.
  - destruct (setActive_run serve cfg v d) as (es & o & d' & Hatt & Hrun).
    pose proof (attempts_length _ _ _ _ _ _ _ Hatt) as Hlen.
    exists (S (length es)). split; [lia |].
    assert (pretty (if ToBoolean v then 1 else 0)
            = (if ToBoolean v then "1" else "0" : string)) as ->.
    { destruct (ToBoolean v); reflexivity. }
    rewrite Hrun. destruct o; simpl.
    + rewrite requests_app, retry_events_requests. simpl. now rewrite app_nil_r.
    + now rewrite retry_events_requests.
  - destruct (getActive_run serve cfg d1) as (es & o & d' & Hatt & Hrun).
    rewrite Hrun in Hin |- *.
    assert (o = Resolved r) as ->.
    { last_resolved Hin o. }
    rewrite (property_data _ _ _ Hv). simpl. destruct (ToBoolean v); reflexivity.
Qed.

(** X10. The quantization keeps the order of percents: for
    [0 <= p <= p'] the level written for [p] is at most the level written
    for [p'], and so is the percent read back. *)
Theorem quantization_monotone (p p' : Z) :
  0 <= p <= p' ->
  speed (VNumber (Int p)) <= speed (VNumber (Int p'))
  /\ percentage (VNumber (Int (speed (VNumber (Int p)))))
     <= percentage (VNumber (Int (speed (VNumber (Int p'))))).
Proof.
  intros Hp. rewrite !speed_int.
  destruct (Z.eqb_spec p 0); destruct (Z.eqb_spec p' 0);
    destruct (Z.leb_spec p 34); destruct (Z.leb_spec p' 34);
    destruct (Z.leb_spec p 57); destruct (Z.leb_spec p' 57);
    try lia; (split; [lia | vm_compute; discriminate]).
Qed.

(** X11. How far the percent read back is from the percent written: for a
    percent between 0 and 100 the two differ by at most 30, and 0 is read
    back as 0. *)
Theorem quantization_error (p : Z) :
  0 <= p <= 100 ->
  Z.abs (percentage (VNumber (Int (speed (VNumber (Int p))))) - p) <= 30
  /\ (percentage (VNumber (Int (speed (VNumber (Int p))))) = 0 <-> p = 0).
Proof.
  intros Hp. rewrite speed_int.
  destruct (Z.eqb_spec p 0).
  { change (percentage (VNumber (Int 0))) with 0. split; lia. }
  destruct (Z.leb_spec p 34).
  { change (percentage (VNumber (Int 2))) with 25. split; lia. }
  destruct (Z.leb_spec p 57).
  { change (percentage (VNumber (Int 3))) with 45. split; lia. }
  change (percentage (VNumber (Int 4))) with 70. split; lia.
Qed.

(** X12. The log of a write tells its outcome.  [setActive] logs its
    success entry only when the write went through, as its last event and
    with "ON" for a true value and "OFF" for a false one; when the write
    fails, the last event is the failure entry of the retry loop with the
    message of the error thrown. *)
Theorem setActive_log (v : value) (d : D) :
  (forall st, In (Log (SetActiveDone st)) (evs (setActive serve cfg v d)) ->
     res (setActive serve cfg v d) = Return tt
     /\ st = (if ToBoolean v then "ON" else "OFF"))
  /\ (res (setActive serve cfg v d) = Return tt ->
      last (evs (setActive serve cfg v d))
      = Some (Log (SetActiveDone (if ToBoolean v then "ON" else "OFF"))))
  /\ (forall e, res (setActive serve cfg v d) = Throw e ->
        last (evs (setActive serve cfg v d)) = Some (Log (RetryFailed (message e)))).
Proof.
  destruct (setActive_run serve cfg v d) as (es & o & d' & Hatt & ->).
  destruct o as [r | e']; simpl; split; [| split | | split].
  - intros st [H | H]; [discriminate |].
    apply in_app_or in H as [H | [[= <-] | []]]; [| auto].
    apply retry_events_log in H as [(msg & H) | (a & n & msg & H)]; discriminate.
  - intros _. rewrite app_comm_cons. apply last_snoc.
  - intros e. discriminate.
  - intros st [H | H]; [discriminate |].
    apply retry_events_log in H as [(msg & H) | (a & n & msg & H)]; discriminate.
  - discriminate.
  - intros e [= <-]. rewrite last_cons, retry_events_last. reflexivity.
Qed.

End Composition.

(** * The hooks the host calls *)

Lemma In_replicate {A} (x y : A) (n : nat) : In x (replicate n y) -> x = y.
Proof. intros H. apply list_elem_of_In, elem_of_replicate in H. tauto. Qed.

Section Hooks.

Context {D : Type} (serve : D -> string -> outcome * D) (cfg : config).

Lemma getActive_requests (d : D) :
  exists n, (1 <= n <= 3)%nat
    /\ requests (evs (getActive serve cfg d)) = replicate n (mread cfg "1130" "1")
    /\ timeouts (evs (getActive serve cfg d)) = [].
Proof.
  destruct (getActive_run serve cfg d) as (es & o & d' & Hatt & ->).
  pose proof (attempts_length _ _ _ _ _ _ _ Hatt) as Hlen.
  exists (S (length es)). split; [lia |].
  destruct o as [r | e]; [destruct (property r "1130") |]; simpl;
    rewrite ?requests_app, ?timeouts_app, retry_events_requests, retry_events_timeouts;
    simpl; now rewrite ?app_nil_r.
Qed.

Lemma getRotationSpeed_requests (d : D) :
  exists n, (1 <= n <= 3)%nat
    /\ requests (evs (getRotationSpeed serve cfg d))
       = replicate n (mread cfg "1130" "1")
    /\ timeouts (evs (getRotationSpeed serve cfg d)) = [].
Proof.
  destruct (getRotationSpeed_run serve cfg d) as (es & o & d' & Hatt & ->).
  pose proof (attempts_length _ _ _ _ _ _ _ Hatt) as Hlen.
  exists (S (length es)). split; [lia |].
  destruct o as [r | e]; [destruct (property r "1130") |]; simpl;
    rewrite ?requests_app, ?timeouts_app, retry_events_requests, retry_events_timeouts;
    simpl; now rewrite ?app_nil_r.
Qed.

Lemma getTimer_requests (d : D) :
  exists n, (1 <= n <= 3)%nat
    /\ requests (evs (getTimer serve cfg d)) = replicate n (mread cfg "1110" "2")
    /\ timeouts (evs (getTimer serve cfg d)) = [].
Proof.
  destruct (getTimer_run serve cfg d) as (es & o & d' & Hatt & ->).
  pose proof (attempts_length _ _ _ _ _ _ _ Hatt) as Hlen.
  exists (S (length es)). split; [lia |].
  destruct o as [r | e]; [destruct (property r "1110") |]; simpl;
    rewrite requests_app, timeouts_app, retry_events_requests, retry_events_timeouts;
    simpl; now rewrite app_nil_r.
Qed.

Lemma setActive_requests (v : value) (d : D) :
  exists n, (1 <= n <= 3)%nat
    /\ requests (evs (setActive serve cfg v d))
       = replicate n (mwrite cfg "1130" (if ToBoolean v then "1" else "0")).
Proof.
  destruct (setActive_run serve cfg v d) as (es & o & d' & Hatt & ->).
  pose proof (attempts_length _ _ _ _ _ _ _ Hatt) as Hlen.
  exists (S (length es)). split; [lia |].
  destruct o; simpl.
  - rewrite requests_app, retry_events_requests. simpl. now rewrite app_nil_r.
  - now rewrite retry_events_requests.
Qed.

Lemma setRotationSpeed_requests (v : value) (d : D) :
  exists n, (1 <= n <= 3)%nat
    /\ requests (evs (setRotationSpeed serve cfg v d))
       = replicate n (mwrite cfg "1130" (pretty (speed v))).
Proof.
  destruct (setRotationSpeed_run serve cfg v d) as (es & o & d' & Hatt & ->).
  pose proof (attempts_length _ _ _ _ _ _ _ Hatt) as Hlen.
  exists (S (length es)). split; [lia |].
  destruct o; simpl.
  - rewrite requests_app, retry_events_requests. simpl. now rewrite app_nil_r.
  - now rewrite retry_events_requests.
Qed.

Lemma setRefresh_requests (v : value) (d : D) :
  exists n, (n <= 3)%nat
    /\ requests (evs (setRefresh serve cfg v d)) = replicate n (mwrite cfg "1161" "4").
Proof.
  destruct (ToBoolean v) eqn:Hv.
  - destruct (setRefresh_run serve cfg v d Hv) as (es & o & d' & Hatt & ->).
    pose proof (attempts_length _ _ _ _ _ _ _ Hatt) as Hlen.
    exists (S (length es)). split; [lia |].
    destruct o; simpl.
    + rewrite requests_app, retry_events_requests. simpl. now rewrite app_nil_r.
    + now rewrite retry_events_requests.
  - exists 0%nat. unfold setRefresh. rewrite Hv. split; [lia | reflexivity].
Qed.

(** X13. Whatever characteristic the host reads, the device is only
    read: every get handler bound by [setupCharacteristics] sends between
    one and three requests, all of them the same [mread] URL and none of
    them an [mwrite] URL, and arms no timer.  Whatever characteristic the
    host sets, every set handler sends at most three requests, all of them
    the same [mwrite] URL and none of them an [mread] URL. *)
Theorem hooks_read_or_write (a : accessory) (s : service) (c : characteristic)
    (h : hooks D) :
  In (s, c, h) (setupCharacteristics serve cfg a) ->
  (forall g d, onGet h = Some g ->
     (exists register count n, (1 <= n <= 3)%nat
        /\ requests (evs (g d)) = replicate n (mread cfg register count))
     /\ timeouts (evs (g d)) = []
     /\ forall url register payload,
          In url (requests (evs (g d))) -> url <> mwrite cfg register payload)
  /\ (forall f v d, onSet h = Some f ->
        (exists register payload n, (n <= 3)%nat
           /\ requests (evs (f v d)) = replicate n (mwrite cfg register payload))
        /\ forall url register count,
             In url (requests (evs (f v d))) -> url <> mread cfg register count).
Proof.
  intros Hin.
  assert (forall (g : D -> run D value) d,
            (exists register count n, (1 <= n <= 3)%nat
               /\ requests (evs (g d)) = replicate n (mread cfg register count)
               /\ timeouts (evs (g d)) = []) ->
            (exists register count n, (1 <= n <= 3)%nat
               /\ requests (evs (g d)) = replicate n (mread cfg register count))
            /\ timeouts (evs (g d)) = []
            /\ forall url register payload,
                 In url (requests (evs (g d))) -> url <> mwrite cfg register payload)
    as Hget.
  { intros g d (reg & cnt & n & Hn & Hreq & Htim).
    split; [eauto 6 | split; [exact Htim |]].
    intros url reg' payload Hurl. rewrite Hreq in Hurl.
    apply In_replicate in Hurl as ->. apply mread_not_mwrite. }
  assert (forall (f : value -> D -> run D unit) v d,
            (exists register payload n, (n <= 3)%nat
               /\ requests (evs (f v d)) = replicate n (mwrite cfg register payload)) ->
            (exists register payload n, (n <= 3)%nat
               /\ requests (evs (f v d)) = replicate n (mwrite cfg register payload))
            /\ forall url register count,
                 In url (requests (evs (f v d))) -> url <> mread cfg register count)
    as Hset.
  { intros f v d (reg & payload & n & Hn & Hreq).
    split; [eauto 6 |].
    intros url reg' cnt Hurl Heq. rewrite Hreq in Hurl.
    apply In_replicate in Hurl. subst url.
    symmetry in Heq. exact (mread_not_mwrite _ _ _ _ _ Heq). }
  destruct Hin as [[= <- <- <-] | [[= <- <- <-] | [[= <- <- <-] | [[= <- <- <-] | []]]]];
    simpl; split.
  - intros g d [= <-]. apply Hget.
    destruct (getActive_requests d) as (n & Hn & Hreq & Htim). eauto 8.
  - intros f v d [= <-]. apply Hset.
    destruct (setActive_requests v d) as (n & Hn & Hreq).
    exists "1130", (if ToBoolean v then "1" else "0" : string), n. split; [lia | exact Hreq].
  - intros g d [= <-]. apply Hget.
    destruct (getRotationSpeed_requests d) as (n & Hn & Hreq & Htim). eauto 8.
  - intros f v d [= <-]. apply Hset.
    destruct (setRotationSpeed_requests v d) as (n & Hn & Hreq).
    exists "1130", (pretty (speed v)), n. split; [lia | exact Hreq].
  - intros g d. discriminate.
  - intros f v d [= <-]. apply Hset.
    destruct (setRefresh_requests v d) as (n & Hn & Hreq). eauto 8.
  - intros g d [= <-]. apply Hget.
    destruct (getTimer_requests d) as (n & Hn & Hreq & Htim). eauto 8.
  - intros f v d. discriminate.
Qed.

(** X14. The accessory hands the host three services, a fan, a switch and
    a battery service, whose display names are pairwise distinct for every
    configured name; each of them carries at least one handler, and every
    handler sits on one of them. *)
Theorem getServices_wired :
  map stype (getServices (constructor cfg)) = [Fanv2; Switch; BatteryService]
  /\ NoDup (map displayName (getServices (constructor cfg)))
  /\ (forall s, In s (getServices (constructor cfg)) ->
        exists c h, In (s, c, h) (setupCharacteristics serve cfg (constructor cfg))
                    /\ (onGet h <> None \/ onSet h <> None))
  /\ (forall s c h, In (s, c, h) (setupCharacteristics serve cfg (constructor cfg)) ->
        In s (getServices (constructor cfg))).
Proof.
  split; [reflexivity |]. split; [| split].
  - simpl. repeat constructor.
    + intros H. apply elem_of_cons in H as [H | H].
      * apply append_inv_head in H. discriminate H.
      * apply elem_of_cons in H as [H | H]; [| inversion H].
        apply append_inv_head in H. discriminate H.
    + intros H. apply elem_of_cons in H as [H | H]; [| inversion H].
      apply append_inv_head in H. discriminate H.
    + intros H. inversion H.
  - intros s [<- | [<- | [<- | []]]].
    + eexists _, _. split; [left; reflexivity | left; discriminate].
    + eexists _, _. split; [right; right; left; reflexivity | right; discriminate].
    + eexists _, _. split; [right; right; right; left; reflexivity | left; discriminate].
  - intros s c h [[= <- <- <-] | [[= <- <- <-] | [[= <- <- <-] | [[= <- <- <-] | []]]]];
      simpl; auto.
Qed.

(** X15. A string that spells an integer is converted by the comparisons
    of [getTimer]: when the response maps "1110" to such a string, the
    handler returns the number 0 if the integer is negative and the number
    100 if it is above 100, and otherwise returns the string itself, not a
    number. *)
Theorem getTimer_numeric_string (d : D) (r : response) (s : string) (z : Z) :
  In (Get (mread cfg "1110" "2") (Resolved r)) (evs (getTimer serve cfg d)) ->
  data r !! "1110" = Some (VString s) ->
  StringToNumber s = Int z ->
  (z < 0 -> res (getTimer serve cfg d) = Return (VNumber (Int 0)))
  /\ (100 < z -> res (getTimer serve cfg d) = Return (VNumber (Int 100)))
  /\ (0 <= z <= 100 -> res (getTimer serve cfg d) = Return (VString s)).
Proof.
  intros Hin Hv Hz.
  destruct (getTimer_run serve cfg d) as (es & o & d' & Hatt & Hrun).
  rewrite Hrun in Hin |- *.
  assert (o = Resolved r) as ->.
  { last_resolved Hin o. }
  rewrite (property_data _ _ _ Hv). simpl. unfold timerValue, lt, gt. simpl. rewrite Hz. simpl.
  destruct (Z.ltb_spec z 0); [repeat split; intros; (reflexivity || lia) |].
  destruct (Z.ltb_spec 100 z); repeat split; intros; (reflexivity || lia).
Qed.

End Hooks.

(** * Further concrete runs *)


Lemma retryRequest_result_witness :
  (0 < 2)%nat
  /\ res (retryRequest scripted "u" 2 [Rejected (Error "a"); Rejected (Error "b")])
     = Throw (Error "b")
  /\ length (requests (evs (retryRequest scripted "u" 2
                              [Rejected (Error "a"); Rejected (Error "b")])))
     = 2%nat.
Proof.
  assert (0 < 2)%nat as Hpos by lia.
  assert (res (retryRequest scripted "u" 2 [Rejected (Error "a"); Rejected (Error "b")])
          = Throw (Error "b")) as Hres by reflexivity.
  split; [exact Hpos | split; [exact Hres |]].
  pose proof (retryRequest_result scripted "u" 2
                [Rejected (Error "a"); Rejected (Error "b")] Hpos) as H.
  cbv zeta in H. destruct H as (_ & H).
  destruct (H _ Hres) as (_ & Hlen & _). exact Hlen.
Defined.

Lemma getTimer_never_out_of_range_witness :
  exists v,
    res (getTimer scripted home [Resolved (reading "1110" (VNumber (Int 500)))])
    = Return v
    /\ forall z, v = VNumber (Int z) -> 0 <= z <= 100.
Proof.
  exact (getTimer_never_out_of_range scripted home
           [Resolved (reading "1110" (VNumber (Int 500)))]).
Defined.


Lemma getActive_non_number_witness :
  (In (Get (mread home "1130" "1") (Resolved (Response ∅)))
      (evs (getActive scripted home [Resolved (Response ∅)]))
   /\ res (getActive scripted home [Resolved (Response ∅)]) = Return 0)
  /\ (In (Get (mread home "1130" "1") (Resolved (reading "1130" (VString "3"))))
         (evs (getActive scripted home [Resolved (reading "1130" (VString "3"))]))
      /\ StringToNumber "3" = Int 3
      /\ 0 < 3
      /\ res (getActive scripted home [Resolved (reading "1130" (VString "3"))])
         = Return 1).
Proof.
  split.
  - assert (In (Get (mread home "1130" "1") (Resolved (Response ∅)))
               (evs (getActive scripted home [Resolved (Response ∅)]))) as Hin.
    { right. left. reflexivity. }
    split; [exact Hin |].
    destruct (getActive_non_number scripted home _ _ Hin) as (H & _).
    destruct (H ∅ VUndefined eq_refl eq_refl) as (H0 & _).
    exact (H0 (or_introl eq_refl)).
  - assert (In (Get (mread home "1130" "1") (Resolved (reading "1130" (VString "3"))))
               (evs (getActive scripted home
                       [Resolved (reading "1130" (VString "3"))]))) as Hin.
    { right. left. reflexivity. }
    assert (StringToNumber "3" = Int 3) as Hz by reflexivity.
    assert (0 < 3) as Hpos by lia.
    split; [exact Hin | split; [exact Hz | split; [exact Hpos |]]].
    destruct (getActive_non_number scripted home _ _ Hin) as (H & _).
    destruct (H _ (VString "3") eq_refl eq_refl) as (_ & _ & _ & H3).
    exact (proj1 (H3 "3" 3 eq_refl Hz) Hpos).
Defined.

Lemma rotation_speed_implies_active_witness :
  In (Get (mread home "1130" "1") (Resolved (reading "1130" (VNumber (Int 3)))))
     (evs (getActive scripted home [Resolved (reading "1130" (VNumber (Int 3)))]))
  /\ In (Get (mread home "1130" "1") (Resolved (reading "1130" (VNumber (Int 3)))))
        (evs (getRotationSpeed scripted home
                [Resolved (reading "1130" (VNumber (Int 3)))]))
  /\ res (getRotationSpeed scripted home [Resolved (reading "1130" (VNumber (Int 3)))])
     = Return 45
  /\ 45 <> 0
  /\ res (getActive scripted home [Resolved (reading "1130" (VNumber (Int 3)))])
     = Return 1.
Proof.
  assert (In (Get (mread home "1130" "1") (Resolved (reading "1130" (VNumber (Int 3)))))
             (evs (getActive scripted home
                     [Resolved (reading "1130" (VNumber (Int 3)))]))) as Hin1.
  { right. left. reflexivity. }
  assert (In (Get (mread home "1130" "1") (Resolved (reading "1130" (VNumber (Int 3)))))
             (evs (getRotationSpeed scripted home
                     [Resolved (reading "1130" (VNumber (Int 3)))]))) as Hin2.
  { right. left. reflexivity. }
  assert (res (getRotationSpeed scripted home
                 [Resolved (reading "1130" (VNumber (Int 3)))]) = Return 45)
    as Hres by reflexivity.
  assert (45 <> 0) as Hne by lia.
  split; [exact Hin1 | split; [exact Hin2 | split; [exact Hres | split; [exact Hne |]]]].
  exact (rotation_speed_implies_active scripted home _ _ _ 45 Hin1 Hin2 Hres Hne).
Defined.

Lemma setRotationSpeed_any_value_witness :
  exists n, (1 <= n <= 3)%nat
    /\ requests (evs (setRotationSpeed scripted home VUndefined [Resolved (Response ∅)]))
       = replicate n (mwrite home "1130" "4").
Proof.
  destruct (setRotationSpeed_any_value scripted home VUndefined [Resolved (Response ∅)])
    as (level & n & Hn & Hreq & _ & _ & _ & _ & Hundef).
  exists n. split; [exact Hn |].
  rewrite Hreq, (Hundef (or_introl eq_refl)). reflexivity.
Defined.

Lemma setRotationSpeed_then_getActive_witness :
  In (Get (mread home "1130" "1") (Resolved (reading "1130" (VNumber (Int 2)))))
     (evs (getActive scripted home [Resolved (reading "1130" (VNumber (Int 2)))]))
  /\ data (reading "1130" (VNumber (Int 2))) !! "1130"
     = Some (VNumber (Int (speed (VNumber (Int 10)))))
  /\ 10 <> 0
  /\ res (getActive scripted home [Resolved (reading "1130" (VNumber (Int 2)))])
     = Return 1.
Proof.
  assert (In (Get (mread home "1130" "1") (Resolved (reading "1130" (VNumber (Int 2)))))
             (evs (getActive scripted home
                     [Resolved (reading "1130" (VNumber (Int 2)))]))) as Hin.
  { right. left. reflexivity. }
  assert (data (reading "1130" (VNumber (Int 2))) !! "1130"
          = Some (VNumber (Int (speed (VNumber (Int 10)))))) as Hv by reflexivity.
  assert (10 <> 0) as Hne by lia.
  split; [exact Hin | split; [exact Hv | split; [exact Hne |]]].
  destruct (setRotationSpeed_then_getActive scripted home 10
              [Resolved (Response ∅)] _ _ Hin Hv) as (_ & H & _).
  exact (H Hne).
Defined.

Lemma setActive_then_getActive_witness :
  In (Get (mread home "1130" "1") (Resolved (reading "1130" (VNumber (Int 1)))))
     (evs (getActive scripted home [Resolved (reading "1130" (VNumber (Int 1)))]))
  /\ data (reading "1130" (VNumber (Int 1))) !! "1130"
     = Some (VNumber (Int (if ToBoolean (VBool true) then 1 else 0)))
  /\ res (getActive scripted home [Resolved (reading "1130" (VNumber (Int 1)))])
     = Return 1.
Proof.
  assert (In (Get (mread home "1130" "1") (Resolved (reading "1130" (VNumber (Int 1)))))
             (evs (getActive scripted home
                     [Resolved (reading "1130" (VNumber (Int 1)))]))) as Hin.
  { right. left. reflexivity. }
  assert (data (reading "1130" (VNumber (Int 1))) !! "1130"
          = Some (VNumber (Int (if ToBoolean (VBool true) then 1 else 0))))
    as Hv by reflexivity.
  split; [exact Hin | split; [exact Hv |]].
  destruct (setActive_then_getActive scripted home (VBool true)
              [Resolved (Response ∅)] _ _ Hin Hv) as (_ & H).
  exact H.
Defined.

Lemma quantization_monotone_witness :
  0 <= 34 <= 35 /\ speed (VNumber (Int 34)) <= speed (VNumber (Int 35)).
Proof.
  assert (0 <= 34 <= 35) as H by lia.
  split; [exact H |]. exact (proj1 (quantization_monotone 34 35 H)).
Defined.

Lemma quantization_error_witness :
  0 <= 100 <= 100
  /\ Z.abs (percentage (VNumber (Int (speed (VNumber (Int 100))))) - 100) <= 30.
Proof.
  assert (0 <= 100 <= 100) as H by lia.
  split; [exact H |]. exact (proj1 (quantization_error 100 H)).
Defined.

Lemma setActive_log_witness :
  res (setActive scripted home (VBool false) [Resolved (Response ∅)]) = Return tt
  /\ last (evs (setActive scripted home (VBool false) [Resolved (Response ∅)]))
     = Some (Log (SetActiveDone "OFF")).
Proof.
  assert (res (setActive scripted home (VBool false) [Resolved (Response ∅)])
          = Return tt) as Hres by reflexivity.
  split; [exact Hres |].
  destruct (setActive_log scripted home (VBool false) [Resolved (Response ∅)])
    as (_ & H & _).
  exact (H Hres).
Defined.

Lemma hooks_read_or_write_witness :
  In (timerService (constructor home), BatteryLevel,
      Hooks None (Some (getTimer scripted home)))
     (setupCharacteristics scripted home (constructor home))
  /\ timeouts (evs (getTimer scripted home [])) = [].
Proof.
  assert (In (timerService (constructor home), BatteryLevel,
              Hooks None (Some (getTimer scripted home)))
             (setupCharacteristics scripted home (constructor home))) as Hin.
  { right. right. right. left. reflexivity. }
  split; [exact Hin |].
  destruct (hooks_read_or_write scripted home _ _ _ _ Hin) as (H & _).
  destruct (H (getTimer scripted home) [] eq_refl) as (_ & Htim & _).
  exact Htim.
Defined.

Lemma getServices_wired_witness :
  NoDup (map displayName (getServices (constructor home))).
Proof.
  exact (proj1 (proj2 (getServices_wired (D := list outcome) scripted home))).
Defined.

Lemma getTimer_numeric_string_witness :
  In (Get (mread home "1110" "2") (Resolved (reading "1110" (VString "150"))))
     (evs (getTimer scripted home [Resolved (reading "1110" (VString "150"))]))
  /\ data (reading "1110" (VString "150")) !! "1110" = Some (VString "150")
  /\ StringToNumber "150" = Int 150
  /\ 100 < 150
  /\ res (getTimer scripted home [Resolved (reading "1110" (VString "150"))])
     = Return (VNumber (Int 100)).
Proof.
  assert (In (Get (mread home "1110" "2") (Resolved (reading "1110" (VString "150"))))
             (evs (getTimer scripted home
                     [Resolved (reading "1110" (VString "150"))]))) as Hin.
  { right. left. reflexivity. }
  assert (data (reading "1110" (VString "150")) !! "1110" = Some (VString "150"))
    as Hv by reflexivity.
  assert (StringToNumber "150" = Int 150) as Hz by reflexivity.
  assert (100 < 150) as Hgt by lia.
  split; [exact Hin | split; [exact Hv | split; [exact Hz | split; [exact Hgt |]]]].
  destruct (getTimer_numeric_string scripted home _ _ _ _ Hin Hv Hz) as (_ & H & _).
  exact (H Hgt).
Defined.
